(** * gnome-gplus-wallpaper: the slideshow maker, embedded and verified

    A shallow embedding of [gplus_wallpaper_maker.py]: the Python values the
    script manipulates (strings, integers, lists, ElementTree elements, the
    parsed album feed), its exceptions, the effects of [main] on the outside
    world, and the properties of the schedule and of the descriptors it
    writes. *)

From Stdlib Require Import List String Ascii ZArith Lia Bool Arith Permutation.
From Stdlib Require Import DecimalString DecimalZ.
Import ListNotations.

Local Open Scope string_scope.
Local Open Scope list_scope.

(** ** Python values and exceptions *)

Module Py.

(** The exceptions the script can meet. *)
Inductive exn : Type :=
| IndexError
| ValueError
| ZeroDivisionError
| AttributeError
| TypeError
| IOError
| OSError.

(** The outcome of evaluating an expression: a value or a raised exception. *)
Inductive result (A : Type) : Type :=
| Ok (a : A)
| Raise (e : exn).

Arguments Ok {A} a.
Arguments Raise {A} e.

Definition rbind {A B : Type} (r : result A) (k : A -> result B) : result B :=
  match r with
  | Ok a => k a
  | Raise e => Raise e
  end.

(** [str(n)] on an integer: its decimal numeral, with a leading minus sign
    for a negative one. *)
Definition str (n : Z) : string := NilZero.string_of_int (Z.to_int n).

(** [int(s)] on a decimal numeral, [None] when [s] is not one. *)
Definition int (s : string) : option Z :=
  option_map Z.of_int (NilZero.int_of_string s).

(** [len(l)]. *)
Definition len {A : Type} (l : list A) : Z := Z.of_nat (List.length l).

(** [l[i]] for a non-negative index: [IndexError] out of range. *)
Definition getitem {A : Type} (l : list A) (i : nat) : result A :=
  match nth_error l i with
  | Some x => Ok x
  | None => Raise IndexError
  end.

(** [l[i] = v] for a non-negative index: [IndexError] out of range. *)
Fixpoint setitem {A : Type} (l : list A) (i : nat) (v : A) : result (list A) :=
  match l, i with
  | [], _ => Raise IndexError
  | _ :: t, O => Ok (v :: t)
  | h :: t, S i' => rbind (setitem t i' v) (fun t' => Ok (h :: t'))
  end.

(** [enumerate(l)], counting from [start]. *)
Fixpoint enumerate_from {A : Type} (start : nat) (l : list A) : list (nat * A) :=
  match l with
  | [] => []
  | x :: t => (start, x) :: enumerate_from (S start) t
  end.

Definition enumerate {A : Type} (l : list A) : list (nat * A) :=
  enumerate_from 0 l.

(** [c in s] for a one-character [c]. *)
Fixpoint contains (c : ascii) (s : string) : bool :=
  match s with
  | EmptyString => false
  | String a s' => Ascii.eqb a c || contains c s'
  end.

(** [s.rsplit(c, 1)]: [s] cut at its last [c], or [s] alone when it has
    none. *)
Fixpoint rsplit1 (c : ascii) (s : string) : list string :=
  match s with
  | EmptyString => [EmptyString]
  | String a s' =>
      match rsplit1 c s' with
      | [t] => if Ascii.eqb a c then [EmptyString; t] else [String a t]
      | b :: rest => String a b :: rest
      | [] => []
      end
  end.

(** [a, b = l]: unpacking into two variables wants exactly two items. *)
Definition unpack2 {A : Type} (l : list A) : result (A * A) :=
  match l with
  | [a; b] => Ok (a, b)
  | _ => Raise ValueError
  end.

Definition startswith (c : ascii) (s : string) : bool :=
  match s with
  | String a _ => Ascii.eqb a c
  | EmptyString => false
  end.

Fixpoint endswith (c : ascii) (s : string) : bool :=
  match s with
  | EmptyString => false
  | String a EmptyString => Ascii.eqb a c
  | String _ s' => endswith c s'
  end.

(** [os.path.join(a, b)] of [posixpath]: an absolute [b] replaces [a], and a
    separator is put in unless [a] is empty or already ends with one. *)
Definition os_path_join (a b : string) : string :=
  if startswith "/" b then b
  else if String.eqb a "" || endswith "/" a then (a ++ b)%string
  else (a ++ "/" ++ b)%string.

End Py.

Import Py.

Notation "x <- r ;; k" := (rbind r (fun x => k))
  (at level 61, r at next level, right associativity).

(** ** [xml.etree.ElementTree] *)

Module ET.

(** An element: its tag, its text and its children, in document order. The
    script sets no attribute and no tail. *)
#[warnings="-register-all"]
Inductive Element : Type :=
| Elem (tag : string) (text : option string) (children : list Element).

Definition tag (e : Element) : string :=
  match e with Elem t _ _ => t end.

Definition text (e : Element) : option string :=
  match e with Elem _ x _ => x end.

Definition children (e : Element) : list Element :=
  match e with Elem _ _ c => c end.

(** [ET.Element(tag)]: a fresh element, with no text and no child. *)
Definition Element_ (t : string) : Element := Elem t None [].

(** [e.text = s]. *)
Definition set_text (e : Element) (s : option string) : Element :=
  Elem (tag e) s (children e).

(** [parent.append(child)]. *)
Definition append (parent child : Element) : Element :=
  Elem (tag parent) (text parent) (children parent ++ [child]).

(** [parent.extend(elements)]. *)
Definition extend (parent : Element) (elements : list Element) : Element :=
  Elem (tag parent) (text parent) (children parent ++ elements).

(** The idiom [x = ET.SubElement(parent, t); x.text = s]: the child is
    attached first and given its text through the shared reference, so that
    the parent ends with a child carrying the text. *)
Definition SubElement_text (parent : Element) (t : string) (s : option string)
  : Element :=
  append parent (set_text (Element_ t) s).

(** [e.find(t)]: the first child with tag [t]. *)
Definition find (e : Element) (t : string) : option Element :=
  List.find (fun c => String.eqb (tag c) t) (children e).

(** [e.findtext(t)]: the text of the first child with tag [t]. *)
Definition findtext (e : Element) (t : string) : option string :=
  match find e t with
  | Some c => text c
  | None => None
  end.

(** [ET.ElementTree(root)]. *)
Record ElementTree : Type := mkElementTree { getroot : Element }.

End ET.

Import ET.

(** ** The schedule builder *)

(** [_create_slideshow_xml_item_pair(image, next_image, duration_minutes)]. *)
Definition _create_slideshow_xml_item_pair
    (image next_image : string) (duration_minutes : Z) : Element * Element :=
  (* Reserve 5 sec for the change transition *)
  let transition_duration_seconds := 5%Z in
  let static_duration_seconds :=
    (duration_minutes * 60 - transition_duration_seconds)%Z in
  let static := Element_ "static" in
  let static :=
    SubElement_text static "duration" (Some (str static_duration_seconds)) in
  let static := SubElement_text static "file" (Some image) in
  let transition := Element_ "transition" in
  let transition :=
    SubElement_text transition "duration"
      (Some (str transition_duration_seconds)) in
  let transition := SubElement_text transition "from" (Some image) in
  let transition := SubElement_text transition "to" (Some next_image) in
  (static, transition).

(** The [starttime] block [_create_slideshow_xml] opens the document with. *)
Definition starttime_block : Element :=
  let starttime := Element_ "starttime" in
  let starttime := SubElement_text starttime "year" (Some "2015") in
  let starttime := SubElement_text starttime "month" (Some "01") in
  let starttime := SubElement_text starttime "day" (Some "01") in
  let starttime := SubElement_text starttime "hour" (Some "00") in
  let starttime := SubElement_text starttime "minute" (Some "00") in
  let starttime := SubElement_text starttime "second" (Some "00") in
  starttime.

(** The [for index, image in enumerate(images)] loop of
    [_create_slideshow_xml], over what is left of the enumeration. *)
Fixpoint slideshow_loop (images : list string) (duration_minutes : Z)
    (todo : list (nat * string)) (background : Element) : result Element :=
  match todo with
  | [] => Ok background
  | (index, image) :: todo' =>
      (* Make sure the last image transitions to the first. *)
      next_image <-
        (if (Z.of_nat index <? len images - 1)%Z
         then getitem images (index + 1)
         else getitem images 0) ;;
      let '(static, transition) :=
        _create_slideshow_xml_item_pair image next_image duration_minutes in
      slideshow_loop images duration_minutes todo'
        (extend background [static; transition])
  end.

(** [_create_slideshow_xml(images, duration_minutes)]. *)
Definition _create_slideshow_xml (images : list string) (duration_minutes : Z)
  : result ElementTree :=
  let background := Element_ "background" in
  (* Set to some time in the past, but make sure to start at midnight. *)
  let background := append background starttime_block in
  background <-
    slideshow_loop images duration_minutes (enumerate images) background ;;
  Ok (mkElementTree background).

(** [_create_background_properties_xml(album_name, slideshow_xml_filepath)].
    The album name is whatever [nodeValue] gave, [None] included. *)
Definition _create_background_properties_xml
    (album_name : option string) (slideshow_xml_filepath : string)
  : ElementTree :=
  let wallpapers := Element_ "wallpapers" in
  let wallpaper := Element_ "wallpaper" in
  let wallpaper := SubElement_text wallpaper "name" album_name in
  let wallpaper :=
    SubElement_text wallpaper "filename" (Some slideshow_xml_filepath) in
  let wallpaper := SubElement_text wallpaper "options" (Some "zoom") in
  let wallpaper := SubElement_text wallpaper "pcolor" (Some "#111111") in
  let wallpaper := SubElement_text wallpaper "scolor" (Some "#111111") in
  let wallpaper := SubElement_text wallpaper "shade_type" (Some "solid") in
  let wallpapers := append wallpapers wallpaper in
  mkElementTree wallpapers.

(** ** [xml.dom.minidom]: the parsed album feed *)

Module Dom.

(** A node of the parsed feed: an element, with its namespace, local name,
    attributes and child nodes, or a text node. *)
#[warnings="-register-all"]
Inductive Node : Type :=
| ElementNode (namespaceURI localName : string)
    (attributes : list (string * string)) (childNodes : list Node)
| TextNode (data : string).

(** A document is given by its top-level nodes. *)
Definition Document : Type := list Node.

(** The helper behind [getElementsByTagNameNS]: the matching elements under
    a node, the node itself included, in document order. ["*"] matches any
    namespace and any local name. *)
Fixpoint elements_by_tag_ns (nsURI name : string) (n : Node) : list Node :=
  match n with
  | TextNode _ => []
  | ElementNode ns local _ kids =>
      (if (String.eqb name "*" || String.eqb local name)
          && (String.eqb nsURI "*" || String.eqb ns nsURI)
       then [n] else [])
      ++ flat_map (elements_by_tag_ns nsURI name) kids
  end.

Definition getElementsByTagNameNS (doc : Document) (nsURI name : string)
  : list Node :=
  flat_map (elements_by_tag_ns nsURI name) doc.

(** [node.firstChild], [None] for a node without children. *)
Definition firstChild (n : Node) : option Node :=
  match n with
  | ElementNode _ _ _ (c :: _) => Some c
  | _ => None
  end.

(** [node.nodeValue]: the data of a text node, [None] for an element. *)
Definition nodeValue (n : Node) : option string :=
  match n with
  | TextNode d => Some d
  | ElementNode _ _ _ _ => None
  end.

(** [node.getAttribute(name)]: the empty string for a missing attribute. *)
Definition getAttribute (n : Node) (name : string) : string :=
  match n with
  | ElementNode _ _ attrs _ =>
      match List.find (fun kv => String.eqb (fst kv) name) attrs with
      | Some kv => snd kv
      | None => ""
      end
  | TextNode _ => ""
  end.

End Dom.

Import Dom.

(** ** The outside world *)

(** What a run does to its surroundings, in the order it happens: the calls
    it makes, not what they achieve. [Rmtree] is the call
    [shutil.rmtree(path, ignore_errors=True)], which removes what it can
    and reports nothing; [Makedirs], [Urlretrieve] and [WriteFile] stand
    for calls that went through. *)
Inductive Chunk : Type :=
| RawText (s : string)
| TreeXml (tree : ElementTree) (encoding : option string).

Inductive Effect : Type :=
| Rmtree (path : string)
| Makedirs (path : string)
| Urlretrieve (url filename : string)
| WriteFile (path : string) (content : list Chunk)
| Progress (total so_far : Z)
| PrintLine (line : string).

(** What the run depends on and does not change: the two directories fixed
    when the module is loaded (they come from the user's home directory),
    what the network answers, which directories can be created and which
    files can be opened for writing (not those of a directory that is
    missing, for one). *)
Record Env : Type := mkEnv {
  _BACKGROUND_PROPERTIES_DIR : string;
  _BACKGROUNDS_DIR : string;
  urlopen_parse : string -> result Document;
  urlretrieve_ok : string -> bool;
  makedirs_ok : string -> bool;
  open_ok : string -> bool
}.

(** The state of the random generator: the draws to come. *)
Definition Rng : Type := list nat.

(** A computation with effects: from the generator's state to a value or an
    exception, the effects emitted up to there, and the generator's state
    afterwards. *)
Definition M (A : Type) : Type := Rng -> result A * list Effect * Rng.

Definition ret {A : Type} (a : A) : M A := fun g => (Ok a, [], g).

Definition raise {A : Type} (e : exn) : M A := fun g => (Raise e, [], g).

Definition lift {A : Type} (r : result A) : M A := fun g => (r, [], g).

Definition emit (e : Effect) : M unit := fun g => (Ok tt, [e], g).

Definition bind {A B : Type} (m : M A) (k : A -> M B) : M B :=
  fun g =>
    match m g with
    | (Ok a, t, g') =>
        match k a g' with
        | (r, t', g'') => (r, t ++ t', g'')
        end
    | (Raise e, t, g') => (Raise e, t, g')
    end.

(** [try: m except OSError: pass]. *)
Definition except_OSError_pass (m : M unit) : M unit :=
  fun g =>
    match m g with
    | (Raise OSError, t, g') => (Ok tt, t, g')
    | o => o
    end.

Notation "x <~ m ;; k" := (bind m (fun x => k))
  (at level 61, m at next level, right associativity).
Notation "m ;;; k" := (bind m (fun _ => k))
  (at level 61, right associativity).

(** [int(random() * n)] for [n >= 1]: the generator's next draw, brought
    into the range from [0] to [n - 1]; a generator that has run dry draws
    [0]. *)
Definition random_below (n : nat) : M nat :=
  fun g =>
    match g with
    | [] => (Ok 0, [], [])
    | d :: g' => (Ok (d mod n), [], g')
    end.

(** The loop of [random.shuffle(x)], [for i in reversed(xrange(1, len(x)))],
    with [i] still to run through [n], [n - 1], ..., [1]. *)
Fixpoint shuffle_loop {A : Type} (n : nat) (x : list A) : M (list A) :=
  match n with
  | O => ret x
  | S n' =>
      let i := n in
      (* pick an element in x[:i+1] with which to exchange x[i] *)
      j <~ random_below (i + 1) ;;
      xj <~ lift (getitem x j) ;;
      xi <~ lift (getitem x i) ;;
      x <~ lift (setitem x i xj) ;;
      x <~ lift (setitem x j xi) ;;
      shuffle_loop n' x
  end.

(** [random.shuffle(x)]; the list shuffled in place is returned. *)
Definition shuffle {A : Type} (x : list A) : M (list A) :=
  shuffle_loop (List.length x - 1) x.

(** [os.makedirs(path)]. *)
Definition makedirs (env : Env) (path : string) : M unit :=
  if makedirs_ok env path then emit (Makedirs path) else raise OSError.

(** [urllib.urlretrieve(url, filename)]. *)
Definition urlretrieve (env : Env) (url filename : string) : M unit :=
  if urlretrieve_ok env url then emit (Urlretrieve url filename)
  else raise IOError.

(** Writing a document to [path], by [tree.write(path)] or within
    [with open(path, 'w')]: opening the file is what can fail. *)
Definition write_file (env : Env) (path : string) (content : list Chunk)
  : M unit :=
  if open_ok env path then emit (WriteFile path content) else raise IOError.

(** ** The script *)

Definition _GPHOTO_NS : string := "http://schemas.google.com/photos/2007".
Definition _MEDIA_NS : string := "http://search.yahoo.com/mrss/".

(** [_print_download_progress(total, so_far)]: the ratio
    [so_far / float(total)] is a division by zero for an empty album. *)
Definition _print_download_progress (total so_far : Z) : M unit :=
  if (total =? 0)%Z then raise ZeroDivisionError
  else emit (Progress total so_far).

(** [_save_image(image_url, album_dir)]. *)
Definition _save_image (env : Env) (image_url album_dir : string) : M string :=
  p <~ lift (unpack2 (rsplit1 "/" image_url)) ;;
  let '(base_image_url, image_filename) := p in
  let download_url :=
    (base_image_url ++ "/s4096-d/" ++ image_filename)%string in
  let local_filepath := os_path_join album_dir image_filename in
  urlretrieve env download_url local_filepath ;;;
  ret local_filepath.

(** The command line, as [argparse] hands it over. *)
Record Args : Type := mkArgs {
  album_url : string;
  duration_minutes : Z;
  randomize : bool
}.

(** [node.firstChild.nodeValue]. *)
Definition firstChild_nodeValue (n : Node) : result (option string) :=
  match firstChild n with
  | Some c => Ok (nodeValue c)
  | None => Raise AttributeError
  end.

(** The download loop of [main],
    [for index, media_content in enumerate(media_content_elements)]. *)
Fixpoint download_loop (env : Env) (total : Z) (album_dir : string)
    (todo : list (nat * Node)) (images : list string) : M (list string) :=
  match todo with
  | [] => ret images
  | (index, media_content) :: todo' =>
      filepath <~ _save_image env (getAttribute media_content "url") album_dir ;;
      let images := images ++ [filepath] in
      _print_download_progress total (Z.of_nat index + 1) ;;;
      download_loop env total album_dir todo' images
  end.

Definition dquote : string := String "034"%char "".

(** The prolog [main] writes in front of the registration document. *)
Definition bg_properties_prolog : string :=
  ("<?xml version=" ++ dquote ++ "1.0" ++ dquote ++ " encoding=" ++ dquote
   ++ "UTF-8" ++ dquote ++ "?>"
   ++ "<!DOCTYPE wallpapers SYSTEM " ++ dquote ++ "gnome-wp-list.dtd"
   ++ dquote ++ ">")%string.

(** [main()], after the command line has been parsed. *)
Definition main (env : Env) (args : Args) : M unit :=
  album_xml <~ lift (urlopen_parse env (album_url args)) ;;
  name_node <~
    lift (getitem (getElementsByTagNameNS album_xml _GPHOTO_NS "name") 0) ;;
  album_name <~ lift (firstChild_nodeValue name_node) ;;
  id_node <~
    lift (getitem (getElementsByTagNameNS album_xml _GPHOTO_NS "id") 0) ;;
  album_id <~ lift (firstChild_nodeValue id_node) ;;
  (* os.path.join has no use for None *)
  album_id <~
    match album_id with
    | Some i => ret i
    | None => raise AttributeError
    end ;;
  let album_dir := os_path_join (_BACKGROUNDS_DIR env) album_id in
  (* Recreate album directory, removes previously created slideshow and
     images. *)
  emit (Rmtree album_dir) ;;;
  makedirs env album_dir ;;;
  (* Create the background properties directory if it doesn't exist. *)
  except_OSError_pass (makedirs env (_BACKGROUND_PROPERTIES_DIR env)) ;;;
  let images := [] in
  (* Download and save all the images in the album. *)
  let media_content_elements :=
    getElementsByTagNameNS album_xml _MEDIA_NS "content" in
  _print_download_progress (len media_content_elements) 0 ;;;
  images <~
    download_loop env (len media_content_elements) album_dir
      (enumerate media_content_elements) images ;;
  emit (PrintLine "") ;;;
  images <~ (if randomize args then shuffle images else ret images) ;;
  (* Create slideshow xml and save it in the same place as the images. *)
  slideshow_xml <~
    lift (_create_slideshow_xml images (duration_minutes args)) ;;
  let slideshow_xml_filepath := os_path_join album_dir "slideshow.xml" in
  emit (PrintLine ("Writing slideshow xml to: " ++ slideshow_xml_filepath)) ;;;
  write_file env slideshow_xml_filepath [TreeXml slideshow_xml None] ;;;
  (* Create background properties xml file and save it in the correct
     location. *)
  let bg_properties_xml :=
    _create_background_properties_xml album_name slideshow_xml_filepath in
  let bg_properties_xml_filepath :=
    os_path_join (_BACKGROUND_PROPERTIES_DIR env) (album_id ++ ".xml") in
  emit (PrintLine ("Writing background properties to: "
               ++ bg_properties_xml_filepath)) ;;;
  (* encoding and doctype are needed on this file. *)
  write_file env bg_properties_xml_filepath
    [RawText bg_properties_prolog;
     TreeXml bg_properties_xml (Some "utf-8")] ;;;
  emit (PrintLine "All done!").

(** ** A sample album *)

Module Sample.

Definition photo (url : string) : Node :=
  ElementNode "http://www.w3.org/2005/Atom" "entry" []
    [ElementNode _MEDIA_NS "group" []
       [ElementNode _MEDIA_NS "content" [("url", url); ("type", "image/jpeg")]
          []]].

Definition feed (photos : list string) : Document :=
  [ElementNode "http://www.w3.org/2005/Atom" "feed" []
     ([ElementNode _GPHOTO_NS "id" [] [TextNode "abc123"];
       ElementNode _GPHOTO_NS "name" [] [TextNode "Trip 2015"]]
      ++ map photo photos)].

Definition env (photos : list string) : Env :=
  mkEnv "/home/u/.local/share/gnome-background-properties/"
        "/home/u/.local/share/backgrounds/"
        (fun _ => Ok (feed photos))
        (fun _ => true)
        (fun _ => true)
        (fun _ => true).

Definition three : list string :=
  ["https://lh3.example.com/album123/one.jpg";
   "https://lh3.example.com/album123/two.jpg";
   "https://lh3.example.com/album123/three.jpg"].

End Sample.

(** ** Reading a slideshow document back *)

(** Consecutive children taken two by two. *)
Fixpoint pair_up (l : list Element) : list (Element * Element) :=
  match l with
  | s :: t :: rest => (s, t) :: pair_up rest
  | _ => []
  end.

Definition unpair (p : Element * Element) : list Element := [fst p; snd p].

(** The (static, transition) pairs of a slideshow document: what follows
    the [starttime] block, two by two. *)
Definition schedule_pairs (tree : ElementTree) : list (Element * Element) :=
  pair_up (skipn 1 (children (getroot tree))).

(** The number of seconds an element announces in its [duration] child. *)
Definition duration_seconds (e : Element) : option Z :=
  match findtext e "duration" with
  | Some s => int s
  | None => None
  end.

(** The image paths a slideshow document shows, in order. *)
Definition schedule_images (tree : ElementTree) : list string :=
  flat_map (fun p => match findtext (fst p) "file" with
                     | Some s => [s]
                     | None => []
                     end) (schedule_pairs tree).

(** The image that follows position [i] in the cycle over [images]. *)
Definition successor (images : list string) (i : nat) : string :=
  nth (S i mod List.length images) images "".

(** The schedule as a list of pairs: one per image, towards its successor. *)
Definition schedule (images : list string) (duration_minutes : Z)
  : list (Element * Element) :=
  map (fun p => _create_slideshow_xml_item_pair (snd p)
                  (successor images (fst p)) duration_minutes)
      (enumerate images).

(** The local paths a run has downloaded images to, in order. *)
Definition downloaded (effects : list Effect) : list string :=
  flat_map (fun e => match e with
                     | Urlretrieve _ filename => [filename]
                     | _ => []
                     end) effects.

(** The paths a run has written documents to, in order. *)
Definition written (effects : list Effect) : list string :=
  flat_map (fun e => match e with
                     | WriteFile path _ => [path]
                     | _ => []
                     end) effects.

(** The progress lines of a run, as (total, so far), in order. *)
Definition progress_lines (effects : list Effect) : list (Z * Z) :=
  flat_map (fun e => match e with
                     | Progress total so_far => [(total, so_far)]
                     | _ => []
                     end) effects.

(** The base and the file name [_save_image] cuts a URL into; a URL
    without '/' has no such cut and is given back with an empty name. *)
Definition url_parts (image_url : string) : string * string :=
  match rsplit1 "/" image_url with
  | [base_image_url; image_filename] => (base_image_url, image_filename)
  | _ => (image_url, "")
  end.

(** The URL [_save_image] retrieves for a source URL. *)
Definition download_url_of (image_url : string) : string :=
  (fst (url_parts image_url) ++ "/s4096-d/" ++ snd (url_parts image_url))%string.

(** The path [_save_image] stores the image of a source URL at. *)
Definition local_filepath_of (album_dir image_url : string) : string :=
  os_path_join album_dir (snd (url_parts image_url)).

(** A source URL [_save_image] can serve: it has a '/' and what it is
    rewritten to can be retrieved. *)
Definition fetchable (env : Env) (image_url : string) : bool :=
  contains "/" image_url && urlretrieve_ok env (download_url_of image_url).

(** The exception [_save_image] raises on a URL it cannot serve. *)
Definition save_image_error (image_url : string) : exn :=
  if contains "/" image_url then IOError else ValueError.

(** What the download loop emits over the entries it gets through. *)
Definition download_effects (total : Z) (album_dir : string)
    (todo : list (nat * Node)) : list Effect :=
  flat_map (fun p =>
              [Urlretrieve (download_url_of (getAttribute (snd p) "url"))
                 (local_filepath_of album_dir (getAttribute (snd p) "url"));
               Progress total (Z.of_nat (fst p) + 1)]) todo.

(** The seconds of one whole cycle of a slideshow document: all static and
    transition durations added up. *)
Definition cycle_seconds (tree : ElementTree) : option Z :=
  fold_right (fun p acc =>
                match duration_seconds (fst p), duration_seconds (snd p), acc
                with
                | Some s, Some t, Some a => Some (s + t + a)%Z
                | _, _, _ => None
                end) (Some 0%Z) (schedule_pairs tree).

(** [String.join]: the parts with [sep] between them. *)
Fixpoint join (sep : string) (parts : list string) : string :=
  match parts with
  | [] => ""
  | [p] => p
  | p :: rest => (p ++ sep ++ join sep rest)%string
  end.

(** The album directory of [main], [album_dir]. *)
Definition album_dir_of (env : Env) (album_id : string) : string :=
  os_path_join (_BACKGROUNDS_DIR env) album_id.

(** The path [main] writes the slideshow to, [slideshow_xml_filepath]. *)
Definition slideshow_path_of (env : Env) (album_id : string) : string :=
  os_path_join (album_dir_of env album_id) "slideshow.xml".

(** The path [main] writes the registration document to,
    [bg_properties_xml_filepath]. *)
Definition registration_path_of (env : Env) (album_id : string) : string :=
  os_path_join (_BACKGROUND_PROPERTIES_DIR env) (album_id ++ ".xml").

(** The elements [main] downloads the images of,
    [media_content_elements]. *)
Definition media_content_elements_of (album_xml : Document) : list Node :=
  getElementsByTagNameNS album_xml _MEDIA_NS "content".

(** What creating the properties directory leaves in the trace: nothing
    when it fails, the failure being passed over. *)
Definition properties_dir_effects (env : Env) : list Effect :=
  if makedirs_ok env (_BACKGROUND_PROPERTIES_DIR env)
  then [Makedirs (_BACKGROUND_PROPERTIES_DIR env)] else [].

(** What [main] emits from the slideshow on: the two documents and the
    lines printed around them. *)
Definition descriptor_effects (env : Env) (album_name : option string)
    (album_id : string) (slideshow_xml : ElementTree) : list Effect :=
  [PrintLine ("Writing slideshow xml to: " ++ slideshow_path_of env album_id);
   WriteFile (slideshow_path_of env album_id) [TreeXml slideshow_xml None];
   PrintLine ("Writing background properties to: "
              ++ registration_path_of env album_id);
   WriteFile (registration_path_of env album_id)
     [RawText bg_properties_prolog;
      TreeXml (_create_background_properties_xml album_name
                 (slideshow_path_of env album_id)) (Some "utf-8")];
   PrintLine "All done!"].

(** What [main] emits from the slideshow on when the first [k] of its five
    steps go through: a line, the slideshow, a line, the registration
    document, the last line. *)
Definition descriptor_effects_upto (k : nat) (env : Env)
    (album_name : option string) (album_id : string)
    (slideshow_xml : ElementTree) : list Effect :=
  firstn k (descriptor_effects env album_name album_id slideshow_xml).

(** How the run ends once the slideshow is built: with both documents
    written, or on the first of the two files that cannot be opened. *)
Definition descriptor_outcome (env : Env) (album_name : option string)
    (album_id : string) (slideshow_xml : ElementTree)
  : result unit * list Effect :=
  if open_ok env (slideshow_path_of env album_id) then
    if open_ok env (registration_path_of env album_id) then
      (Ok tt, descriptor_effects env album_name album_id slideshow_xml)
    else
      (Raise IOError,
       descriptor_effects_upto 3 env album_name album_id slideshow_xml)
  else
    (Raise IOError,
     descriptor_effects_upto 1 env album_name album_id slideshow_xml).

(** The slideshow document of a list of images, as
    [_create_slideshow_xml] builds it. *)
Definition slideshow_document (images : list string) (duration_minutes : Z)
  : ElementTree :=
  mkElementTree
    (Elem "background" None
       (starttime_block
        :: flat_map unpair (schedule images duration_minutes))).

(** An outcome, behind effects emitted before it. *)
Definition after {A : Type} (t : list Effect)
    (o : result A * list Effect * Rng) : result A * list Effect * Rng :=
  let '(r, t', g') := o in (r, t ++ t', g').

(** ** Less regular albums and surroundings *)

Module Odd.


(** A feed with an album name and no album identifier. *)
Definition no_id_feed : Document :=
  [ElementNode "http://www.w3.org/2005/Atom" "feed" []
     [ElementNode _GPHOTO_NS "name" [] [TextNode "Trip 2015"];
      Sample.photo "https://lh3.example.com/album123/one.jpg"]].

(** The surroundings of [Sample.env], around any feed, with the network
    and the creation of directories answering as told; every file can be
    opened. *)
Definition env (doc : Document) (retrieve_ok create_ok : string -> bool)
  : Env :=
  mkEnv "/home/u/.local/share/gnome-background-properties/"
        "/home/u/.local/share/backgrounds/"
        (fun _ => Ok doc) retrieve_ok create_ok (fun _ => true).

(** The surroundings of [Sample.env] around [Sample.three], without a
    properties directory: it cannot be created, and no file in it can be
    opened. *)
Definition env_without_properties_dir : Env :=
  mkEnv "/home/u/.local/share/gnome-background-properties/"
        "/home/u/.local/share/backgrounds/"
        (fun _ => Ok (Sample.feed Sample.three))
        (fun _ => true)
        (fun path =>
           negb (String.eqb path
                   "/home/u/.local/share/gnome-background-properties/"))
        (fun path =>
           negb (String.eqb path
                   "/home/u/.local/share/gnome-background-properties/abc123.xml")).


End Odd.

(** * Properties *)

(** ** Integers and their numerals *)

Lemma to_int_not_nil (z : Z) :
  Z.to_int z <> Decimal.Pos Decimal.Nil /\ Z.to_int z <> Decimal.Neg Decimal.Nil.
Proof.
  destruct z as [|p|p]; simpl; split; try discriminate;
    intros [= H]; exact (DecimalPos.Unsigned.to_uint_nonnil p H).
Qed.

Lemma int_str (z : Z) : int (str z) = Some z.
Proof.
  unfold int, str.
  destruct (to_int_not_nil z) as [Hp Hn].
  rewrite NilZero.isi by assumption.
  simpl. now rewrite DecimalZ.of_to.
Qed.

Lemma str_inj (a b : Z) : str a = str b -> a = b.
Proof.
  intros H. apply (f_equal int) in H. rewrite !int_str in H. congruence.
Qed.

(** ** Lists and enumerations *)

Lemma enumerate_from_length {A : Type} (l : list A) (s : nat) :
  List.length (enumerate_from s l) = List.length l.
Proof.
  revert s. induction l as [|x l IH]; intros s; simpl; [reflexivity|].
  now rewrite IH.
Qed.

Lemma enumerate_from_nth_error {A : Type} (l : list A) (s i : nat) :
  nth_error (enumerate_from s l) i =
  option_map (fun x => (s + i, x)) (nth_error l i).
Proof.
  revert s i. induction l as [|x l IH]; intros s [|i]; simpl; try reflexivity.
  - now rewrite Nat.add_0_r.
  - rewrite IH. now rewrite Nat.add_succ_r.
Qed.

Lemma enumerate_from_In {A : Type} (l : list A) (s i : nat) (x : A) :
  In (i, x) (enumerate_from s l) ->
  s <= i < s + List.length l /\ nth_error l (i - s) = Some x.
Proof.
  revert s. induction l as [|y l IH]; intros s; simpl; [tauto|].
  intros [[= <- <-]|H].
  - rewrite Nat.sub_diag. split; [lia|reflexivity].
  - apply IH in H. destruct H as [Hr Hn]. split; [lia|].
    replace (i - s) with (S (i - S s)) by lia. exact Hn.
Qed.

Lemma enumerate_from_snd {A : Type} (l : list A) (s : nat) :
  map snd (enumerate_from s l) = l.
Proof.
  revert s. induction l as [|x l IH]; intros s; simpl; [reflexivity|].
  now rewrite IH.
Qed.

Lemma getitem_nth (l : list string) (i : nat) :
  i < List.length l -> getitem l i = Ok (nth i l "").
Proof.
  intros H. unfold getitem.
  now rewrite (nth_error_nth' l "" H).
Qed.

Lemma pair_up_unpair (ps : list (Element * Element)) :
  pair_up (flat_map unpair ps) = ps.
Proof.
  induction ps as [|[s t] ps IH]; simpl; [reflexivity|].
  now rewrite IH.
Qed.

(** ** The schedule *)

Lemma extend_extend (e : Element) (l1 l2 : list Element) :
  extend (extend e l1) l2 = extend e (l1 ++ l2).
Proof.
  destruct e as [t x c]. unfold extend. simpl. now rewrite <- app_assoc.
Qed.

Lemma extend_nil (e : Element) : extend e [] = e.
Proof.
  destruct e as [t x c]. unfold extend. simpl. now rewrite app_nil_r.
Qed.

(** The index test of the loop picks the successor in the cycle. *)
Lemma next_image_successor (images : list string) (index : nat) :
  index < List.length images ->
  (if (Z.of_nat index <? len images - 1)%Z
   then getitem images (index + 1)
   else getitem images 0) = Ok (successor images index).
Proof.
  intros Hlt. unfold successor, len.
  destruct (Z.ltb_spec (Z.of_nat index) (Z.of_nat (List.length images) - 1))
    as [H|H].
  - rewrite Nat.add_1_r.
    rewrite Nat.mod_small by lia.
    apply getitem_nth. lia.
  - replace (S index) with (List.length images) by lia.
    rewrite Nat.Div0.mod_same.
    apply getitem_nth. lia.
Qed.

(** The loop never fails on indices of the list, and appends one pair per
    image still to do. *)
Lemma slideshow_loop_ok (images : list string) (D : Z)
    (todo : list (nat * string)) (background : Element) :
  (forall i x, In (i, x) todo -> i < List.length images) ->
  slideshow_loop images D todo background =
  Ok (extend background
        (flat_map unpair
           (map (fun p => _create_slideshow_xml_item_pair (snd p)
                            (successor images (fst p)) D) todo))).
Proof.
  revert background.
  induction todo as [|[index image] todo IH]; intros background Hin.
  - simpl. now rewrite extend_nil.
  - cbn [slideshow_loop].
    rewrite next_image_successor by (apply (Hin index image); now left).
    cbn [rbind].
    destruct (_create_slideshow_xml_item_pair image (successor images index) D)
      as [static transition] eqn:Hp.
    rewrite IH by (intros i x Hi; apply (Hin i x); now right).
    rewrite extend_extend. cbn [map flat_map fst snd]. rewrite Hp.
    reflexivity.
Qed.

(** The document [_create_slideshow_xml] builds, for every list of images
    and every duration: the [starttime] block, then the schedule. *)
Lemma create_slideshow_xml_ok (images : list string) (D : Z) :
  _create_slideshow_xml images D =
  Ok (mkElementTree
        (Elem "background" None
           (starttime_block :: flat_map unpair (schedule images D)))).
Proof.
  unfold _create_slideshow_xml.
  rewrite slideshow_loop_ok.
  - reflexivity.
  - intros i x Hin. apply enumerate_from_In in Hin. simpl in Hin. lia.
Qed.

Lemma schedule_pairs_ok (images : list string) (D : Z) :
  schedule_pairs
    (mkElementTree
       (Elem "background" None
          (starttime_block :: flat_map unpair (schedule images D))))
  = schedule images D.
Proof.
  unfold schedule_pairs. cbn [getroot children skipn].
  apply pair_up_unpair.
Qed.

Lemma schedule_length (images : list string) (D : Z) :
  List.length (schedule images D) = List.length images.
Proof.
  unfold schedule, enumerate.
  now rewrite length_map, enumerate_from_length.
Qed.

Lemma schedule_nth_error (images : list string) (D : Z) (i : nat) :
  nth_error (schedule images D) i =
  option_map (fun image =>
                _create_slideshow_xml_item_pair image (successor images i) D)
             (nth_error images i).
Proof.
  unfold schedule, enumerate.
  rewrite nth_error_map, enumerate_from_nth_error.
  destruct (nth_error images i); reflexivity.
Qed.

Lemma schedule_In (images : list string) (D : Z) (p : Element * Element) :
  In p (schedule images D) ->
  exists image next_image,
    p = _create_slideshow_xml_item_pair image next_image D.
Proof.
  unfold schedule. rewrite in_map_iff.
  intros [[i x] [<- _]]. now exists x, (successor images i).
Qed.

(** What one pair holds. *)
Lemma item_pair_static (image next_image : string) (D : Z) :
  fst (_create_slideshow_xml_item_pair image next_image D) =
  Elem "static" None
    [Elem "duration" (Some (str (D * 60 - 5))) [];
     Elem "file" (Some image) []].
Proof. reflexivity. Qed.

Lemma item_pair_transition (image next_image : string) (D : Z) :
  snd (_create_slideshow_xml_item_pair image next_image D) =
  Elem "transition" None
    [Elem "duration" (Some "5") [];
     Elem "from" (Some image) [];
     Elem "to" (Some next_image) []].
Proof. reflexivity. Qed.

Lemma item_pair_durations (image next_image : string) (D : Z) :
  duration_seconds (fst (_create_slideshow_xml_item_pair image next_image D))
  = Some (D * 60 - 5)%Z /\
  duration_seconds (snd (_create_slideshow_xml_item_pair image next_image D))
  = Some 5%Z.
Proof.
  rewrite item_pair_static, item_pair_transition.
  unfold duration_seconds. cbn [findtext find children List.find tag text].
  cbn [String.eqb Ascii.eqb Bool.eqb]. split; [apply int_str|reflexivity].
Qed.

Ltac item_pair_of H :=
  let image := fresh "image" in
  let next := fresh "next_image" in
  apply schedule_In in H; destruct H as (image & next & ->).

(** C1. For every list of N >= 1 image paths and every duration D with
    D*60 > 5, the document holds, after the start time, exactly N pairs of a
    [static] and a [transition] element, and in each pair the two durations
    add up to D*60 seconds (the static one being positive). *)
Theorem schedule_pair_count_and_period (images : list string) (D : Z) :
  1 <= List.length images ->
  (D * 60 > 5)%Z ->
  exists tree,
    _create_slideshow_xml images D = Ok tree /\
    children (getroot tree)
    = starttime_block :: flat_map unpair (schedule_pairs tree) /\
    List.length (schedule_pairs tree) = List.length images /\
    Forall (fun p =>
              tag (fst p) = "static" /\ tag (snd p) = "transition" /\
              exists s t,
                duration_seconds (fst p) = Some s /\
                duration_seconds (snd p) = Some t /\
                (0 < s)%Z /\ (s + t = D * 60)%Z)
           (schedule_pairs tree).
Proof.
  intros _ HD.
  eexists. split; [apply create_slideshow_xml_ok|].
  rewrite schedule_pairs_ok. cbn [getroot children].
  split; [reflexivity|]. split; [apply schedule_length|].
  apply Forall_forall. intros p Hp. item_pair_of Hp.
  destruct (item_pair_durations image next_image D) as [Hs Ht].
  repeat split.
  exists (D * 60 - 5)%Z, 5%Z. repeat split; try assumption; lia.
Qed.

Lemma schedule_pair_count_and_period_witness :
  exists tree,
    _create_slideshow_xml ["a.jpg"; "b.jpg"] 1 = Ok tree /\
    children (getroot tree)
    = starttime_block :: flat_map unpair (schedule_pairs tree) /\
    List.length (schedule_pairs tree) = 2 /\
    Forall (fun p =>
              tag (fst p) = "static" /\ tag (snd p) = "transition" /\
              exists s t,
                duration_seconds (fst p) = Some s /\
                duration_seconds (snd p) = Some t /\
                (0 < s)%Z /\ (s + t = 1 * 60)%Z)
           (schedule_pairs tree).
Proof.
  apply (schedule_pair_count_and_period ["a.jpg"; "b.jpg"] 1).
  - simpl. lia.
  - lia.
Defined.

(** C2. For every non-empty list of N images, the schedule is one cycle
    over all of them: there is one pair per position, the pair at position i
    shows image i and fades from image i to image (i+1) mod N, so that the
    sources are the images in order, each once, and the last image fades
    back to the first. *)
Theorem schedule_is_a_single_cycle (images : list string) (D : Z) :
  images <> [] ->
  exists tree,
    _create_slideshow_xml images D = Ok tree /\
    List.length (schedule_pairs tree) = List.length images /\
    map (fun p => findtext (snd p) "from") (schedule_pairs tree)
    = map Some images /\
    (forall i, i < List.length images ->
       exists p,
         nth_error (schedule_pairs tree) i = Some p /\
         findtext (fst p) "file" = nth_error images i /\
         findtext (snd p) "from" = nth_error images i /\
         findtext (snd p) "to"
         = nth_error images ((i + 1) mod List.length images)) /\
    (exists p,
       nth_error (schedule_pairs tree) (List.length images - 1) = Some p /\
       findtext (snd p) "to" = nth_error images 0).
Proof.
  intros Hne.
  assert (Hlen : 0 < List.length images)
    by (destruct images; [congruence|simpl; lia]).
  assert (Hat : forall i, i < List.length images ->
            exists p,
              nth_error (schedule images D) i = Some p /\
              findtext (fst p) "file" = nth_error images i /\
              findtext (snd p) "from" = nth_error images i /\
              findtext (snd p) "to"
              = nth_error images ((i + 1) mod List.length images)).
  { intros i Hi. rewrite schedule_nth_error.
    rewrite (nth_error_nth' images "" Hi). cbn [option_map].
    eexists. split; [reflexivity|].
    rewrite item_pair_static, item_pair_transition.
    repeat split.
    unfold successor. rewrite Nat.add_1_r.
    cbn [findtext find children List.find tag text String.eqb Ascii.eqb
         Bool.eqb].
    symmetry. apply nth_error_nth'.
    apply Nat.mod_upper_bound. lia. }
  eexists. split; [apply create_slideshow_xml_ok|].
  rewrite schedule_pairs_ok.
  split; [apply schedule_length|]. split; [|split].
  - unfold schedule. rewrite map_map.
    rewrite <- (enumerate_from_snd images 0) at 2. rewrite map_map.
    apply map_ext. intros [i x]. reflexivity.
  - exact Hat.
  - destruct (Hat (List.length images - 1)) as (p & Hp & _ & _ & Hto);
      [lia|].
    exists p. split; [exact Hp|]. rewrite Hto.
    replace (List.length images - 1 + 1) with (List.length images) by lia.
    now rewrite Nat.Div0.mod_same.
Qed.

Lemma schedule_is_a_single_cycle_witness :
  exists tree,
    _create_slideshow_xml ["a.jpg"; "b.jpg"; "c.jpg"] 30 = Ok tree /\
    List.length (schedule_pairs tree) = 3 /\
    map (fun p => findtext (snd p) "from") (schedule_pairs tree)
    = [Some "a.jpg"; Some "b.jpg"; Some "c.jpg"] /\
    (forall i, i < 3 ->
       exists p,
         nth_error (schedule_pairs tree) i = Some p /\
         findtext (fst p) "file" = nth_error ["a.jpg"; "b.jpg"; "c.jpg"] i /\
         findtext (snd p) "from" = nth_error ["a.jpg"; "b.jpg"; "c.jpg"] i /\
         findtext (snd p) "to"
         = nth_error ["a.jpg"; "b.jpg"; "c.jpg"] ((i + 1) mod 3)) /\
    (exists p,
       nth_error (schedule_pairs tree) 2 = Some p /\
       findtext (snd p) "to" = Some "a.jpg").
Proof.
  apply (schedule_is_a_single_cycle ["a.jpg"; "b.jpg"; "c.jpg"] 30).
  discriminate.
Defined.

(** C7. In every pair the cross-fade lasts the constant 5 seconds, whatever
    the configuration, and the static display lasts
    [duration_minutes * 60 - 5] seconds; with 30 minutes every static
    duration is written 1795 and every transition duration 5. *)
Theorem durations_are_fixed :
  (forall image next_image D,
     findtext (snd (_create_slideshow_xml_item_pair image next_image D))
       "duration" = Some "5" /\
     findtext (fst (_create_slideshow_xml_item_pair image next_image D))
       "duration" = Some (str (D * 60 - 5))) /\
  (forall images D,
     exists tree,
       _create_slideshow_xml images D = Ok tree /\
       Forall (fun p =>
                 duration_seconds (snd p) = Some 5%Z /\
                 duration_seconds (fst p) = Some (D * 60 - 5)%Z)
              (schedule_pairs tree)) /\
  (forall images,
     exists tree,
       _create_slideshow_xml images 30 = Ok tree /\
       Forall (fun p =>
                 findtext (fst p) "duration" = Some "1795" /\
                 findtext (snd p) "duration" = Some "5")
              (schedule_pairs tree)).
Proof.
  split; [|split].
  - intros image next_image D.
    rewrite item_pair_static, item_pair_transition. split; reflexivity.
  - intros images D.
    eexists. split; [apply create_slideshow_xml_ok|].
    rewrite schedule_pairs_ok.
    apply Forall_forall. intros p Hp. item_pair_of Hp.
    destruct (item_pair_durations image next_image D). now split.
  - intros images.
    eexists. split; [apply create_slideshow_xml_ok|].
    rewrite schedule_pairs_ok.
    apply Forall_forall. intros p Hp. item_pair_of Hp.
    rewrite item_pair_static, item_pair_transition. split; reflexivity.
Qed.

(** C9. In the pair built for an image, the file of the static element, the
    source of the transition element and the image passed in are the same:
    what is displayed is what the next cross-fade starts from. *)
Theorem static_file_is_transition_source
    (image next_image : string) (D : Z) :
  let p := _create_slideshow_xml_item_pair image next_image D in
  tag (fst p) = "static" /\
  tag (snd p) = "transition" /\
  findtext (fst p) "file" = Some image /\
  findtext (snd p) "from" = Some image /\
  findtext (fst p) "file" = findtext (snd p) "from".
Proof.
  cbv zeta. rewrite item_pair_static, item_pair_transition.
  repeat split.
Qed.

(** C3, as the specification has it, fails: with a duration of 0 minutes
    the builder raises nothing and writes the static duration -5, and the
    whole run goes through. *)
Lemma zero_duration_raises_nothing :
  (exists tree,
     _create_slideshow_xml ["a.jpg"] 0 = Ok tree /\
     map (fun p => findtext (fst p) "duration") (schedule_pairs tree)
     = [Some "-5"]) /\
  fst (fst (main (Sample.env Sample.three) (mkArgs "feed" 0 false) []))
  = Ok tt /\
  ~ (forall images D,
       (D = 0 \/ D * 60 - 5 <= 0)%Z ->
       exists e, _create_slideshow_xml images D = Raise e).
Proof.
  split; [|split].
  - eexists. split; reflexivity.
  - vm_compute. reflexivity.
  - intros H. destruct (H ["a.jpg"] 0%Z) as [e He]; [now left|].
    discriminate He.
Qed.

(** C3, amended. For every duration that makes [duration_minutes * 60 - 5]
    zero or negative, building the schedule raises nothing: the document is
    built with one pair per image, and every static element announces that
    non-positive number of seconds. *)
Theorem nonpositive_duration_is_emitted (images : list string) (D : Z) :
  (D * 60 - 5 <= 0)%Z ->
  exists tree,
    _create_slideshow_xml images D = Ok tree /\
    List.length (schedule_pairs tree) = List.length images /\
    Forall (fun p =>
              exists s, duration_seconds (fst p) = Some s /\
                        s = (D * 60 - 5)%Z /\ (s <= 0)%Z)
           (schedule_pairs tree).
Proof.
  intros HD.
  eexists. split; [apply create_slideshow_xml_ok|].
  rewrite schedule_pairs_ok. split; [apply schedule_length|].
  apply Forall_forall. intros p Hp. item_pair_of Hp.
  destruct (item_pair_durations image next_image D) as [Hs _].
  exists (D * 60 - 5)%Z. now repeat split.
Qed.

Lemma nonpositive_duration_is_emitted_witness :
  exists tree,
    _create_slideshow_xml ["a.jpg"; "b.jpg"] 0 = Ok tree /\
    List.length (schedule_pairs tree) = 2 /\
    Forall (fun p =>
              exists s, duration_seconds (fst p) = Some s /\
                        s = (0 * 60 - 5)%Z /\ (s <= 0)%Z)
           (schedule_pairs tree).
Proof.
  apply (nonpositive_duration_is_emitted ["a.jpg"; "b.jpg"] 0).
  lia.
Defined.

(** ** Cutting a URL at its last separator *)

Lemma rsplit1_without (c : ascii) (s : string) :
  contains c s = false -> rsplit1 c s = [s].
Proof.
  induction s as [|a s IH]; simpl; [reflexivity|].
  intros H. apply orb_false_iff in H. destruct H as [Ha Hs].
  now rewrite (IH Hs), Ha.
Qed.

Lemma rsplit1_app (c : ascii) (b f : string) :
  contains c f = false ->
  rsplit1 c (b ++ String c f) = [b; f].
Proof.
  intros Hf. induction b as [|a b IH]; simpl.
  - now rewrite (rsplit1_without c f Hf), Ascii.eqb_refl.
  - now rewrite IH.
Qed.

Lemma rsplit1_with (c : ascii) (s : string) :
  contains c s = true ->
  exists b f,
    s = (b ++ String c f)%string /\ contains c f = false /\
    rsplit1 c s = [b; f].
Proof.
  induction s as [|a s IH]; simpl; [discriminate|].
  intros H. destruct (contains c s) eqn:Hs.
  - destruct (IH eq_refl) as (b & f & -> & Hf & Hsplit).
    exists (String a b), f. repeat split; [assumption|].
    now rewrite Hsplit.
  - rewrite orb_false_r in H. apply Ascii.eqb_eq in H. subst a.
    exists "", s. repeat split; [assumption|].
    now rewrite (rsplit1_without c s Hs), Ascii.eqb_refl.
Qed.

Lemma contains_startswith (c : ascii) (s : string) :
  contains c s = false -> startswith c s = false.
Proof.
  destruct s as [|a s]; simpl; [reflexivity|].
  intros H. now apply orb_false_iff in H.
Qed.

Lemma os_path_join_relative (a b : string) :
  startswith "/" b = false ->
  os_path_join a b =
  if String.eqb a "" || endswith "/" a then (a ++ b)%string
  else (a ++ "/" ++ b)%string.
Proof.
  intros H. unfold os_path_join. now rewrite H.
Qed.

(** What [_save_image] does once the URL is cut. *)
Lemma save_image_cut (env : Env) (base filename album_dir : string) (g : Rng) :
  contains "/" filename = false ->
  _save_image env (base ++ "/" ++ filename) album_dir g =
  let download_url := (base ++ "/s4096-d/" ++ filename)%string in
  let local_filepath := os_path_join album_dir filename in
  if urlretrieve_ok env download_url
  then (Ok local_filepath, [Urlretrieve download_url local_filepath], g)
  else (Raise IOError, [], g).
Proof.
  intros Hf. unfold _save_image, bind, lift.
  change (base ++ "/" ++ filename)%string
    with (base ++ String "/" filename)%string.
  rewrite (rsplit1_app "/" base filename Hf).
  cbn [unpack2]. unfold urlretrieve.
  destruct (urlretrieve_ok env _); reflexivity.
Qed.

Lemma string_app_assoc (a b c : string) :
  ((a ++ b) ++ c = a ++ (b ++ c))%string.
Proof.
  induction a as [|x a IH]; simpl; [reflexivity|now rewrite IH].
Qed.

(** The example of the specification, under any prefix. *)
Lemma save_image_album123_photo (env : Env) (prefix album_dir : string)
    (g : Rng) :
  urlretrieve_ok env (prefix ++ "/album123/s4096-d/photo.jpg") = true ->
  _save_image env (prefix ++ "/album123/photo.jpg") album_dir g =
  (Ok (os_path_join album_dir "photo.jpg"),
   [Urlretrieve (prefix ++ "/album123/s4096-d/photo.jpg")
      (os_path_join album_dir "photo.jpg")], g).
Proof.
  intros Hnet.
  change (prefix ++ "/album123/photo.jpg")%string
    with (prefix ++ ("/album123" ++ "/" ++ "photo.jpg"))%string.
  rewrite <- string_app_assoc, save_image_cut by reflexivity.
  cbv zeta. rewrite string_app_assoc.
  change ("/album123" ++ "/s4096-d/" ++ "photo.jpg")%string
    with "/album123/s4096-d/photo.jpg".
  now rewrite Hnet.
Qed.

(** C4. For every source URL with at least one '/', [_save_image] cuts it
    at the last '/' into a base and a file name (the only such cut), asks
    for base + "/s4096-d/" + file name, and stores the image under the file
    name, unchanged, in the album directory. *)
Theorem save_image_rewrites_url
    (env : Env) (image_url album_dir : string) (g : Rng) :
  contains "/" image_url = true ->
  exists base filename,
    image_url = (base ++ "/" ++ filename)%string /\
    contains "/" filename = false /\
    (forall b f,
       image_url = (b ++ "/" ++ f)%string -> contains "/" f = false ->
       b = base /\ f = filename) /\
    rsplit1 "/" image_url = [base; filename] /\
    os_path_join album_dir filename
    = (if String.eqb album_dir "" || endswith "/" album_dir
       then album_dir ++ filename
       else album_dir ++ "/" ++ filename)%string /\
    _save_image env image_url album_dir g
    = (if urlretrieve_ok env (base ++ "/s4096-d/" ++ filename)
       then (Ok (os_path_join album_dir filename),
             [Urlretrieve (base ++ "/s4096-d/" ++ filename)
                (os_path_join album_dir filename)], g)
       else (Raise IOError, [], g)).
Proof.
  intros Hsep.
  destruct (rsplit1_with "/" image_url Hsep) as (base & filename & -> & Hf & Hcut).
  exists base, filename. split; [reflexivity|]. split; [assumption|].
  split; [|split; [assumption|split]].
  - intros b f Heq Hbf.
    change (b ++ "/" ++ f)%string with (b ++ String "/" f)%string in Heq.
    rewrite Heq, (rsplit1_app "/" b f Hbf) in Hcut.
    injection Hcut as -> ->. now split.
  - apply os_path_join_relative. now apply contains_startswith.
  - apply (save_image_cut env base filename album_dir g Hf).
Qed.

Lemma save_image_rewrites_url_witness :
  contains "/" "https://lh3.example.com/album123/photo.jpg" = true /\
  _save_image (Sample.env []) "https://lh3.example.com/album123/photo.jpg"
    "/home/u/.local/share/backgrounds/abc123" []
  = (Ok "/home/u/.local/share/backgrounds/abc123/photo.jpg",
     [Urlretrieve "https://lh3.example.com/album123/s4096-d/photo.jpg"
        "/home/u/.local/share/backgrounds/abc123/photo.jpg"], []).
Proof.
  split; [reflexivity|].
  destruct (save_image_rewrites_url (Sample.env [])
              "https://lh3.example.com/album123/photo.jpg"
              "/home/u/.local/share/backgrounds/abc123" [] eq_refl)
    as (base & filename & _ & _ & Hcut & _ & _ & Hrun).
  destruct (Hcut "https://lh3.example.com/album123" "photo.jpg"
              eq_refl eq_refl) as [Hb Hf].
  rewrite <- Hb, <- Hf in Hrun. exact Hrun.
Defined.

(** C10. A source URL without any '/' is outside the domain of
    [_save_image]: [rsplit] hands back a single item, the unpacking into
    two variables raises [ValueError], and nothing is downloaded. *)
Theorem save_image_needs_separator
    (env : Env) (image_url album_dir : string) (g : Rng) :
  contains "/" image_url = false ->
  rsplit1 "/" image_url = [image_url] /\
  unpack2 (rsplit1 "/" image_url) = Raise ValueError /\
  _save_image env image_url album_dir g = (Raise ValueError, [], g).
Proof.
  intros Hsep. pose proof (rsplit1_without "/" image_url Hsep) as Hcut.
  split; [assumption|].
  unfold _save_image, bind, lift. rewrite Hcut. split; reflexivity.
Qed.

Lemma save_image_needs_separator_witness :
  contains "/" "photo.jpg" = false /\
  rsplit1 "/" "photo.jpg" = ["photo.jpg"] /\
  unpack2 (rsplit1 "/" "photo.jpg") = Raise ValueError /\
  _save_image (Sample.env []) "photo.jpg" "/tmp/album" [3; 1]
  = (Raise ValueError, [], [3; 1]).
Proof.
  split; [reflexivity|].
  apply (save_image_needs_separator (Sample.env []) "photo.jpg" "/tmp/album"
           [3; 1]).
  reflexivity.
Defined.

(** ** Computations with effects *)

Lemma bind_ok {A B : Type} (m : M A) (k : A -> M B) (g g' : Rng)
    (b : B) (t : list Effect) :
  bind m k g = (Ok b, t, g') ->
  exists a t1 g1 t2,
    m g = (Ok a, t1, g1) /\ k a g1 = (Ok b, t2, g') /\ t = t1 ++ t2.
Proof.
  unfold bind. destruct (m g) as [[[a|e] t1] g1]; [|discriminate].
  destruct (k a g1) as [[r t2] g2] eqn:Hk.
  intros [= -> <- ->]. now exists a, t1, g1, t2.
Qed.

Lemma lift_ok {A : Type} (r : result A) (g g' : Rng) (a : A)
    (t : list Effect) :
  lift r g = (Ok a, t, g') -> r = Ok a /\ t = [] /\ g' = g.
Proof. unfold lift. intros [= -> <- <-]. now repeat split. Qed.

Lemma ret_ok {A : Type} (x a : A) (g g' : Rng) (t : list Effect) :
  ret x g = (Ok a, t, g') -> a = x /\ t = [] /\ g' = g.
Proof. unfold ret. intros [= <- <- <-]. now repeat split. Qed.

Lemma emit_ok (e : Effect) (g g' : Rng) (u : unit) (t : list Effect) :
  emit e g = (Ok u, t, g') -> t = [e] /\ g' = g.
Proof. unfold emit. intros [= _ <- <-]. now split. Qed.

(** ** Shuffling *)

Lemma getitem_ok {A : Type} (l : list A) (i : nat) :
  i < List.length l -> exists x, getitem l i = Ok x /\ nth_error l i = Some x.
Proof.
  intros H. unfold getitem.
  destruct (nth_error l i) as [x|] eqn:E.
  - now exists x.
  - apply nth_error_None in E. lia.
Qed.

Lemma setitem_ok {A : Type} (l : list A) (i : nat) (v : A) :
  i < List.length l ->
  exists l', setitem l i v = Ok l' /\ List.length l' = List.length l.
Proof.
  revert i. induction l as [|h l IH]; intros i Hi; simpl in *; [lia|].
  destruct i as [|i].
  - now exists (v :: l).
  - destruct (IH i) as (l' & -> & Hlen); [lia|].
    exists (h :: l'). simpl. now rewrite Hlen.
Qed.

(** Writing [v] where [x] was trades one for the other. *)
Lemma setitem_trade {A : Type} (l l' : list A) (i : nat) (x v : A) :
  nth_error l i = Some x -> setitem l i v = Ok l' ->
  Permutation (v :: l) (x :: l').
Proof.
  revert i l'. induction l as [|h l IH]; intros [|i] l'; simpl;
    try discriminate.
  - intros [= ->] [= <-]. apply perm_swap.
  - intros Hx Hset.
    destruct (setitem l i v) as [l1|] eqn:E; simpl in Hset; [|discriminate].
    injection Hset as <-.
    apply perm_trans with (h :: v :: l); [apply perm_swap|].
    apply perm_trans with (h :: x :: l1); [|apply perm_swap].
    apply perm_skip. now apply (IH i).
Qed.

(** The exchange [x[i], x[j] = x[j], x[i]] permutes the list. *)
Lemma exchange_permutation {A : Type} (l l1 l2 : list A) (i j : nat)
    (xi xj : A) :
  nth_error l i = Some xi -> nth_error l j = Some xj ->
  setitem l i xj = Ok l1 -> setitem l1 j xi = Ok l2 ->
  Permutation l l2.
Proof.
  revert i j l1 l2.
  induction l as [|h l IH]; intros [|i] [|j] l1 l2; simpl; try discriminate.
  - intros [= ->] [= ->] [= <-] [= <-]. apply Permutation_refl.
  - intros [= ->] Hj [= <-]. simpl.
    destruct (setitem l j xi) as [l'|] eqn:E; simpl; [|discriminate].
    intros [= <-]. now apply (setitem_trade l l' j xj xi).
  - intros Hi [= ->] H1.
    destruct (setitem l i xj) as [l'|] eqn:E; simpl in H1; [|discriminate].
    injection H1 as <-. simpl. intros [= <-].
    now apply (setitem_trade l l' i xi xj).
  - intros Hi Hj H1.
    destruct (setitem l i xj) as [l'|] eqn:E; simpl in H1; [|discriminate].
    injection H1 as <-. simpl.
    destruct (setitem l' j xi) as [l''|] eqn:E'; simpl; [|discriminate].
    intros [= <-]. apply perm_skip. now apply (IH i j l' l'').
Qed.

Lemma random_below_ok (n : nat) (g : Rng) :
  0 < n ->
  exists j g', random_below n g = (Ok j, [], g') /\ j < n.
Proof.
  intros Hn. destruct g as [|d g]; simpl.
  - now exists 0, [].
  - exists (d mod n), g. split; [reflexivity|].
    apply Nat.mod_upper_bound. lia.
Qed.

(** The loop of [shuffle] runs to its end on indices of the list, emits
    nothing, and leaves a permutation. *)
Lemma shuffle_loop_ok {A : Type} (n : nat) (x : list A) (g : Rng) :
  n = 0 \/ n < List.length x ->
  exists x' g',
    shuffle_loop n x g = (Ok x', [], g') /\ Permutation x x'.
Proof.
  revert x g. induction n as [|n IH]; intros x g Hn.
  - exists x, g. split; [reflexivity|apply Permutation_refl].
  - destruct Hn as [Hn|Hn]; [discriminate|].
    cbn [shuffle_loop].
    destruct (random_below_ok (S n + 1) g) as (j & g1 & Hr & Hj); [lia|].
    destruct (getitem_ok x j) as (xj & Hgj & Hnj); [lia|].
    destruct (getitem_ok x (S n)) as (xi & Hgi & Hni); [lia|].
    destruct (setitem_ok x (S n) xj Hn) as (x1 & Hs1 & Hl1).
    destruct (setitem_ok x1 j xi) as (x2 & Hs2 & Hl2); [lia|].
    destruct (IH x2 g1) as (x' & g' & Hrec & Hperm); [right; lia|].
    exists x', g'. split.
    + unfold bind at 1. rewrite Hr.
      unfold bind at 1. unfold lift at 1. rewrite Hgj.
      unfold bind at 1. unfold lift at 1. rewrite Hgi.
      unfold bind at 1. unfold lift at 1. rewrite Hs1.
      unfold bind at 1. unfold lift at 1. rewrite Hs2.
      rewrite Hrec. reflexivity.
    + apply perm_trans with x2; [|assumption].
      exact (exchange_permutation x x1 x2 (S n) j xi xj Hni Hnj Hs1 Hs2).
Qed.

(** [random.shuffle] always returns, and returns a permutation. *)
Lemma shuffle_permutation {A : Type} (x : list A) (g : Rng) :
  exists x' g',
    shuffle x g = (Ok x', [], g') /\ Permutation x x' /\
    List.length x' = List.length x.
Proof.
  destruct (shuffle_loop_ok (List.length x - 1) x g) as (x' & g' & H & Hp).
  - destruct x; simpl; [now left|right; lia].
  - exists x', g'. split; [exact H|]. split; [exact Hp|].
    symmetry. now apply Permutation_length.
Qed.

(** ** The run as a whole *)

Lemma downloaded_app (t1 t2 : list Effect) :
  downloaded (t1 ++ t2) = downloaded t1 ++ downloaded t2.
Proof. unfold downloaded. apply flat_map_app. Qed.

Lemma save_image_ok (env : Env) (image_url album_dir p : string)
    (g g' : Rng) (t : list Effect) :
  _save_image env image_url album_dir g = (Ok p, t, g') ->
  downloaded t = [p] /\ g' = g.
Proof.
  unfold _save_image, bind, lift.
  destruct (unpack2 (rsplit1 "/" image_url)) as [[b f]|e]; [|discriminate].
  unfold urlretrieve. destruct (urlretrieve_ok env _); [|discriminate].
  cbn. intros [= <- <- <-]. now split.
Qed.

Lemma print_download_progress_ok (total so_far : Z) (g g' : Rng) (u : unit)
    (t : list Effect) :
  _print_download_progress total so_far g = (Ok u, t, g') ->
  t = [Progress total so_far] /\ g' = g /\ total <> 0%Z.
Proof.
  unfold _print_download_progress.
  destruct (Z.eqb_spec total 0) as [E|E]; [discriminate|].
  intros H. apply emit_ok in H. destruct H. now repeat split.
Qed.

Lemma makedirs_ok_inv (env : Env) (path : string) (g g' : Rng) (u : unit)
    (t : list Effect) :
  makedirs env path g = (Ok u, t, g') -> t = [Makedirs path] /\ g' = g.
Proof.
  unfold makedirs. destruct (makedirs_ok env path); [|discriminate].
  apply emit_ok.
Qed.

Lemma except_makedirs_ok (env : Env) (path : string) (g g' : Rng) (u : unit)
    (t : list Effect) :
  except_OSError_pass (makedirs env path) g = (Ok u, t, g') ->
  downloaded t = [] /\ g' = g.
Proof.
  unfold except_OSError_pass, makedirs, emit, raise.
  destruct (makedirs_ok env path); intros [= _ <- <-]; now split.
Qed.

Lemma write_file_ok (env : Env) (path : string) (content : list Chunk)
    (g g' : Rng) (u : unit) (t : list Effect) :
  write_file env path content g = (Ok u, t, g') ->
  t = [WriteFile path content] /\ g' = g /\ open_ok env path = true.
Proof.
  unfold write_file. destruct (open_ok env path); [|discriminate].
  intros H. apply emit_ok in H. destruct H. now repeat split.
Qed.

(** The download loop adds to [images] the paths it has downloaded to, in
    order, and leaves the generator alone. *)
Lemma download_loop_ok (env : Env) (total : Z) (album_dir : string)
    (todo : list (nat * Node)) (images images' : list string)
    (g g' : Rng) (t : list Effect) :
  download_loop env total album_dir todo images g = (Ok images', t, g') ->
  images' = images ++ downloaded t /\ g' = g.
Proof.
  revert images g t.
  induction todo as [|[index media_content] todo IH]; intros images g t H.
  - apply ret_ok in H. destruct H as (-> & -> & ->).
    now rewrite app_nil_r.
  - cbn [download_loop] in H.
    apply bind_ok in H. destruct H as (p & t1 & g1 & t2 & Hsave & H & ->).
    apply save_image_ok in Hsave. destruct Hsave as [Hd1 ->].
    apply bind_ok in H. destruct H as (u & t3 & g3 & t4 & Hprog & H & ->).
    apply print_download_progress_ok in Hprog.
    destruct Hprog as (-> & -> & _).
    apply IH in H. destruct H as [-> ->].
    rewrite !downloaded_app, Hd1. cbn [downloaded flat_map app].
    now rewrite <- app_assoc.
Qed.

(** Everything a run that reaches the end has done. *)
Lemma main_ok (env : Env) (args : Args) (g g' : Rng) (u : unit)
    (effects : list Effect) :
  main env args g = (Ok u, effects, g') ->
  exists album_xml name_node album_name id_node album_id
         images images' slideshow_xml t_before,
    urlopen_parse env (album_url args) = Ok album_xml /\
    getitem (getElementsByTagNameNS album_xml _GPHOTO_NS "name") 0
    = Ok name_node /\
    firstChild_nodeValue name_node = Ok album_name /\
    getitem (getElementsByTagNameNS album_xml _GPHOTO_NS "id") 0
    = Ok id_node /\
    firstChild_nodeValue id_node = Ok (Some album_id) /\
    getElementsByTagNameNS album_xml _MEDIA_NS "content" <> [] /\
    downloaded t_before = images /\
    (if randomize args then shuffle images else ret images) g
    = (Ok images', [], g') /\
    _create_slideshow_xml images' (duration_minutes args)
    = Ok slideshow_xml /\
    let album_dir := os_path_join (_BACKGROUNDS_DIR env) album_id in
    let slideshow_xml_filepath := os_path_join album_dir "slideshow.xml" in
    let bg_properties_xml_filepath :=
      os_path_join (_BACKGROUND_PROPERTIES_DIR env) (album_id ++ ".xml") in
    effects =
    t_before ++
    [PrintLine "";
     PrintLine ("Writing slideshow xml to: " ++ slideshow_xml_filepath);
     WriteFile slideshow_xml_filepath [TreeXml slideshow_xml None];
     PrintLine ("Writing background properties to: "
                ++ bg_properties_xml_filepath);
     WriteFile bg_properties_xml_filepath
       [RawText bg_properties_prolog;
        TreeXml (_create_background_properties_xml album_name
                   slideshow_xml_filepath) (Some "utf-8")];
     PrintLine "All done!"].
Proof.
  unfold main. intros H.
  apply bind_ok in H. destruct H as (album_xml & ? & ? & ? & Hfeed & H & ->).
  apply lift_ok in Hfeed. destruct Hfeed as (Hfeed & -> & ->).
  apply bind_ok in H. destruct H as (name_node & ? & ? & ? & Hname & H & ->).
  apply lift_ok in Hname. destruct Hname as (Hname & -> & ->).
  apply bind_ok in H. destruct H as (album_name & ? & ? & ? & Hnv & H & ->).
  apply lift_ok in Hnv. destruct Hnv as (Hnv & -> & ->).
  apply bind_ok in H. destruct H as (id_node & ? & ? & ? & Hid & H & ->).
  apply lift_ok in Hid. destruct Hid as (Hid & -> & ->).
  apply bind_ok in H. destruct H as (oid & ? & ? & ? & Hiv & H & ->).
  apply lift_ok in Hiv. destruct Hiv as (Hiv & -> & ->).
  apply bind_ok in H. destruct H as (album_id & ? & ? & ? & Hsome & H & ->).
  destruct oid as [i|]; [|discriminate Hsome].
  apply ret_ok in Hsome. destruct Hsome as (-> & -> & ->).
  apply bind_ok in H. destruct H as (u1 & t1 & ? & ? & Hrm & H & ->).
  apply emit_ok in Hrm. destruct Hrm as (-> & ->).
  apply bind_ok in H. destruct H as (u2 & t2 & ? & ? & Hmk & H & ->).
  apply makedirs_ok_inv in Hmk. destruct Hmk as (-> & ->).
  apply bind_ok in H. destruct H as (u3 & t3 & ? & ? & Hmp & H & ->).
  apply except_makedirs_ok in Hmp. destruct Hmp as (Hd3 & ->).
  apply bind_ok in H. destruct H as (u4 & t4 & ? & ? & Hpr & H & ->).
  apply print_download_progress_ok in Hpr. destruct Hpr as (-> & -> & Htotal).
  apply bind_ok in H. destruct H as (images & t5 & ? & ? & Hdl & H & ->).
  apply download_loop_ok in Hdl. destruct Hdl as (Himgs & ->).
  apply bind_ok in H. destruct H as (u6 & t6 & ? & ? & Hnl & H & ->).
  apply emit_ok in Hnl. destruct Hnl as (-> & ->).
  apply bind_ok in H. destruct H as (images' & t7 & g7 & ? & Hsh & H & ->).
  assert (Ht7 : t7 = []).
  { destruct (randomize args).
    - destruct (shuffle_permutation images g) as (x' & gx & Hx & _).
      rewrite Hx in Hsh. now injection Hsh.
    - apply ret_ok in Hsh. tauto. }
  subst t7.
  apply bind_ok in H. destruct H as (slideshow_xml & ? & ? & ? & Hxml & H & ->).
  apply lift_ok in Hxml. destruct Hxml as (Hxml & -> & ->).
  apply bind_ok in H. destruct H as (u8 & t8 & ? & ? & Hp1 & H & ->).
  apply emit_ok in Hp1. destruct Hp1 as (-> & ->).
  apply bind_ok in H. destruct H as (u9 & t9 & ? & ? & Hw1 & H & ->).
  apply write_file_ok in Hw1. destruct Hw1 as (-> & -> & _).
  apply bind_ok in H. destruct H as (u10 & t10 & ? & ? & Hp2 & H & ->).
  apply emit_ok in Hp2. destruct Hp2 as (-> & ->).
  apply bind_ok in H. destruct H as (u11 & t11 & ? & ? & Hw2 & H & ->).
  apply write_file_ok in Hw2. destruct Hw2 as (-> & -> & _).
  apply emit_ok in H. destruct H as (-> & ->).
  exists album_xml, name_node, album_name, id_node, i, images, images',
    slideshow_xml,
    ([Rmtree (os_path_join (_BACKGROUNDS_DIR env) i)] ++
     [Makedirs (os_path_join (_BACKGROUNDS_DIR env) i)] ++ t3 ++
     [Progress (len (getElementsByTagNameNS album_xml _MEDIA_NS "content")) 0]
     ++ t5).
  repeat (split; [first [assumption | idtac]|]).
  - intros E. apply Htotal. now rewrite E.
  - rewrite !downloaded_app, Hd3. cbn [downloaded flat_map app].
    rewrite Himgs. reflexivity.
  - cbv zeta. cbn [app]. rewrite <- !app_assoc. cbn [app]. reflexivity.
Qed.

Lemma schedule_images_ok (images : list string) (D : Z) :
  schedule_images
    (mkElementTree
       (Elem "background" None
          (starttime_block :: flat_map unpair (schedule images D))))
  = images.
Proof.
  unfold schedule_images. rewrite schedule_pairs_ok.
  unfold schedule, enumerate. generalize (successor images), 0.
  induction images as [|x images IH]; intros next n; [reflexivity|].
  cbn [enumerate_from map flat_map]. rewrite IH.
  rewrite item_pair_static. reflexivity.
Qed.

(** C8. When randomization is asked for and the run reaches its end, the
    slideshow written shows a permutation of the downloaded paths: the
    shuffle, which always returns and only reorders, is applied to the
    downloaded list, and the schedule is built from what it returns. *)
Theorem randomized_schedule_is_a_permutation
    (env : Env) (args : Args) (g g' : Rng) (effects : list Effect) :
  randomize args = true ->
  main env args g = (Ok tt, effects, g') ->
  exists path tree shuffled,
    In (WriteFile path [TreeXml tree None]) effects /\
    shuffle (downloaded effects) g = (Ok shuffled, [], g') /\
    _create_slideshow_xml shuffled (duration_minutes args) = Ok tree /\
    schedule_images tree = shuffled /\
    Permutation (downloaded effects) shuffled /\
    List.length shuffled = List.length (downloaded effects) /\
    (forall image, In image shuffled <-> In image (downloaded effects)).
Proof.
  intros Hrand Hrun.
  apply main_ok in Hrun.
  destruct Hrun as (album_xml & name_node & album_name & id_node & album_id
                    & images & images' & slideshow_xml & t_before
                    & _ & _ & _ & _ & _ & _ & Hdl & Hsh & Hxml & Heff).
  cbv zeta in Heff. rewrite Hrand in Hsh.
  assert (Hall : downloaded effects = images).
  { rewrite Heff, downloaded_app, Hdl. cbn. apply app_nil_r. }
  rewrite Hall.
  destruct (shuffle_permutation images g) as (x' & gx & Hx & Hperm & Hlen).
  rewrite Hx in Hsh. injection Hsh as -> ->.
  exists (os_path_join (os_path_join (_BACKGROUNDS_DIR env) album_id)
            "slideshow.xml"), slideshow_xml, images'.
  split; [rewrite Heff; apply in_or_app; right; cbn; tauto|].
  split; [exact Hx|]. split; [exact Hxml|].
  split.
  { rewrite create_slideshow_xml_ok in Hxml. injection Hxml as <-.
    apply schedule_images_ok. }
  split; [exact Hperm|]. split; [exact Hlen|].
  intros image. split; intros Hin.
  - apply Permutation_in with images'; [now apply Permutation_sym|exact Hin].
  - apply Permutation_in with images; assumption.
Qed.

Lemma randomized_schedule_is_a_permutation_witness :
  downloaded
    (snd (fst (main (Sample.env Sample.three) (mkArgs "feed" 30 true) [0; 0])))
  = ["/home/u/.local/share/backgrounds/abc123/one.jpg";
     "/home/u/.local/share/backgrounds/abc123/two.jpg";
     "/home/u/.local/share/backgrounds/abc123/three.jpg"] /\
  exists path tree shuffled,
    In (WriteFile path [TreeXml tree None])
       (snd (fst (main (Sample.env Sample.three) (mkArgs "feed" 30 true)
                    [0; 0]))) /\
    shuffle
      (downloaded
         (snd (fst (main (Sample.env Sample.three) (mkArgs "feed" 30 true)
                      [0; 0])))) [0; 0]
    = (Ok shuffled, [], []) /\
    _create_slideshow_xml shuffled 30 = Ok tree /\
    schedule_images tree = shuffled /\
    Permutation
      (downloaded
         (snd (fst (main (Sample.env Sample.three) (mkArgs "feed" 30 true)
                      [0; 0])))) shuffled /\
    List.length shuffled
    = List.length
        (downloaded
           (snd (fst (main (Sample.env Sample.three) (mkArgs "feed" 30 true)
                        [0; 0])))) /\
    (forall image,
       In image shuffled <->
       In image
         (downloaded
            (snd (fst (main (Sample.env Sample.three)
                         (mkArgs "feed" 30 true) [0; 0]))))).
Proof.
  split; [reflexivity|].
  apply (randomized_schedule_is_a_permutation (Sample.env Sample.three)
           (mkArgs "feed" 30 true) [0; 0] []).
  - reflexivity.
  - vm_compute. reflexivity.
Defined.

(** ** The registration document *)

Lemma endswith_app (c : ascii) (a b : string) :
  b <> "" -> endswith c (a ++ b) = endswith c b.
Proof.
  intros Hb. induction a as [|x a IH]; [reflexivity|].
  cbn [String.append endswith]. rewrite IH.
  destruct (a ++ b)%string eqn:E; [|reflexivity].
  destruct a; [simpl in E; contradiction|discriminate E].
Qed.

Lemma contains_endswith (c : ascii) (s : string) :
  contains c s = false -> endswith c s = false.
Proof.
  induction s as [|a s IH]; [reflexivity|].
  cbn [contains endswith]. intros H. apply orb_false_iff in H.
  destruct H as [Ha Hs]. destruct s; [exact Ha|now apply IH].
Qed.

(** For an album identifier that is a plain name, the slideshow file is
    [slideshow.xml] in the directory of that name under the backgrounds
    root. *)
Lemma slideshow_path_plain (root album_id : string) :
  endswith "/" root = true ->
  album_id <> "" -> contains "/" album_id = false ->
  os_path_join (os_path_join root album_id) "slideshow.xml"
  = (root ++ album_id ++ "/slideshow.xml")%string.
Proof.
  intros Hroot Hne Hplain.
  rewrite (os_path_join_relative root album_id)
    by now apply contains_startswith.
  rewrite Hroot, orb_true_r.
  rewrite os_path_join_relative by reflexivity.
  rewrite endswith_app by assumption.
  rewrite (contains_endswith "/" album_id Hplain), orb_false_r.
  replace (String.eqb (root ++ album_id) "") with false.
  - now rewrite string_app_assoc.
  - symmetry. apply String.eqb_neq. intros E.
    destruct root; simpl in E; [contradiction|discriminate].
Qed.

(** C6. For every album name and slideshow path, the registration document
    is one wallpaper entry with that name, that path as file name, and the
    constant hints: options zoom, the two colors #111111, shade type solid.
    A run that reaches its end writes it, for the name and the identifier
    of the feed and the path <backgrounds root>/<album id>/slideshow.xml,
    behind the text main writes first: the XML prolog, version 1.0 and
    encoding UTF-8, and the DOCTYPE declaration of wallpapers with the
    system identifier gnome-wp-list.dtd, 86 characters in all (the
    character 034 is the double quote). *)
Theorem registration_document :
  (bg_properties_prolog
   = ("<?xml version=" ++ String "034" "1.0"
            ++ String "034" " encoding=" ++ String "034" "UTF-8"
            ++ String "034" "?>"
            ++ "<!DOCTYPE wallpapers SYSTEM "
            ++ String "034" "gnome-wp-list.dtd" ++ String "034" ">")%string /\
   String.length bg_properties_prolog = 86) /\
  (forall album_name slideshow_xml_filepath,
     _create_background_properties_xml album_name slideshow_xml_filepath
     = mkElementTree
         (Elem "wallpapers" None
            [Elem "wallpaper" None
               [Elem "name" album_name [];
                Elem "filename" (Some slideshow_xml_filepath) [];
                Elem "options" (Some "zoom") [];
                Elem "pcolor" (Some "#111111") [];
                Elem "scolor" (Some "#111111") [];
                Elem "shade_type" (Some "solid") []]])) /\
  (forall env args g g' effects,
     main env args g = (Ok tt, effects, g') ->
     exists album_xml name_node id_node album_name album_id wallpaper,
       urlopen_parse env (album_url args) = Ok album_xml /\
       getitem (getElementsByTagNameNS album_xml _GPHOTO_NS "name") 0
       = Ok name_node /\
       firstChild_nodeValue name_node = Ok album_name /\
       getitem (getElementsByTagNameNS album_xml _GPHOTO_NS "id") 0
       = Ok id_node /\
       firstChild_nodeValue id_node = Ok (Some album_id) /\
       In (WriteFile
             (os_path_join (_BACKGROUND_PROPERTIES_DIR env)
                (album_id ++ ".xml"))
             [RawText
                ("<?xml version=" ++ String "034" "1.0"
                ++ String "034" " encoding=" ++ String "034" "UTF-8"
                ++ String "034" "?>"
                ++ "<!DOCTYPE wallpapers SYSTEM "
                ++ String "034" "gnome-wp-list.dtd" ++ String "034" ">")%string;
              TreeXml (mkElementTree (Elem "wallpapers" None [wallpaper]))
                (Some "utf-8")])
          effects /\
       tag wallpaper = "wallpaper" /\
       findtext wallpaper "name" = album_name /\
       findtext wallpaper "filename"
       = Some (os_path_join (os_path_join (_BACKGROUNDS_DIR env) album_id)
                 "slideshow.xml") /\
       findtext wallpaper "options" = Some "zoom" /\
       findtext wallpaper "pcolor" = Some "#111111" /\
       findtext wallpaper "scolor" = Some "#111111" /\
       findtext wallpaper "shade_type" = Some "solid" /\
       (endswith "/" (_BACKGROUNDS_DIR env) = true ->
        album_id <> "" -> contains "/" album_id = false ->
        findtext wallpaper "filename"
        = Some (_BACKGROUNDS_DIR env ++ album_id ++ "/slideshow.xml")%string)).
Proof.
  split; [split; reflexivity|]. split; [reflexivity|].
  intros env args g g' effects Hrun.
  apply main_ok in Hrun.
  destruct Hrun as (album_xml & name_node & album_name & id_node & album_id
                    & images & images' & slideshow_xml & t_before
                    & Hfeed & Hname & Hnv & Hid & Hiv & _ & _ & _ & _ & Heff).
  cbv zeta in Heff.
  exists album_xml, name_node, id_node, album_name, album_id.
  eexists.
  repeat (split; [eassumption|]).
  split.
  { rewrite Heff. apply in_or_app. right.
    do 4 right. left. reflexivity. }
  repeat (split; [reflexivity|]).
  intros Hroot Hne Hplain.
  rewrite <- (slideshow_path_plain _ _ Hroot Hne Hplain). reflexivity.
Qed.

Lemma registration_document_witness :
  exists wallpaper,
    In (WriteFile "/home/u/.local/share/gnome-background-properties/abc123.xml"
          [RawText
             ("<?xml version=" ++ String "034" "1.0"
             ++ String "034" " encoding=" ++ String "034" "UTF-8"
             ++ String "034" "?>"
             ++ "<!DOCTYPE wallpapers SYSTEM "
             ++ String "034" "gnome-wp-list.dtd" ++ String "034" ">")%string;
           TreeXml (mkElementTree (Elem "wallpapers" None [wallpaper]))
             (Some "utf-8")])
       (snd (fst (main (Sample.env Sample.three) (mkArgs "feed" 30 false) [])))
    /\
    findtext wallpaper "name" = Some "Trip 2015" /\
    findtext wallpaper "filename"
    = Some "/home/u/.local/share/backgrounds/abc123/slideshow.xml".
Proof.
  destruct registration_document as (_ & _ & Hmain).
  destruct (Hmain (Sample.env Sample.three) (mkArgs "feed" 30 false) [] []
              (snd (fst (main (Sample.env Sample.three)
                           (mkArgs "feed" 30 false) []))))
    as (album_xml & name_node & id_node & album_name & album_id & wallpaper
        & Hfeed & Hname & Hnv & Hid & Hiv & Hin & _ & Hn & Hf & _).
  - vm_compute. reflexivity.
  - injection Hfeed as <-.
    injection Hname as <-. injection Hnv as <-.
    injection Hid as <-. injection Hiv as <-.
    exists wallpaper. split; [exact Hin|]. split; [exact Hn|exact Hf].
Defined.

(** ** An album without images *)

(** A feed with a name and an identifier and no image stops the run at the
    first progress line, on a division by zero: the album directory has
    been emptied and recreated, nothing is downloaded and nothing written. *)
Lemma empty_album_divides_by_zero
    (env : Env) (args : Args) (g : Rng) (album_xml : Document)
    (name_node id_node : Node) (album_name : option string)
    (album_id : string) :
  urlopen_parse env (album_url args) = Ok album_xml ->
  getitem (getElementsByTagNameNS album_xml _GPHOTO_NS "name") 0
  = Ok name_node ->
  firstChild_nodeValue name_node = Ok album_name ->
  getitem (getElementsByTagNameNS album_xml _GPHOTO_NS "id") 0 = Ok id_node ->
  firstChild_nodeValue id_node = Ok (Some album_id) ->
  getElementsByTagNameNS album_xml _MEDIA_NS "content" = [] ->
  makedirs_ok env (os_path_join (_BACKGROUNDS_DIR env) album_id) = true ->
  main env args g =
  (Raise ZeroDivisionError,
   [Rmtree (os_path_join (_BACKGROUNDS_DIR env) album_id);
    Makedirs (os_path_join (_BACKGROUNDS_DIR env) album_id)]
   ++ (if makedirs_ok env (_BACKGROUND_PROPERTIES_DIR env)
       then [Makedirs (_BACKGROUND_PROPERTIES_DIR env)] else []),
   g).
Proof.
  intros Hfeed Hname Hnv Hid Hiv Hnone Hmk.
  unfold main, bind, lift, ret, emit, except_OSError_pass, makedirs, raise.
  rewrite Hfeed, Hname, Hnv, Hid, Hiv, Hnone, Hmk.
  destruct (makedirs_ok env (_BACKGROUND_PROPERTIES_DIR env)); reflexivity.
Qed.

(** A feed without the album name is refused earlier and differently, with
    an [IndexError], before anything is touched. *)
Lemma nameless_feed_raises_index_error
    (env : Env) (args : Args) (g : Rng) (album_xml : Document) :
  urlopen_parse env (album_url args) = Ok album_xml ->
  getElementsByTagNameNS album_xml _GPHOTO_NS "name" = [] ->
  main env args g = (Raise IndexError, [], g).
Proof.
  intros Hfeed Hnone. unfold main, bind, lift.
  rewrite Hfeed, Hnone. reflexivity.
Qed.

(** C5. On the well-formed feed with an album name, an album identifier
    and no image entry, the run does not complete: it raises
    [ZeroDivisionError] while printing the first progress line, after
    recreating the directories and before any document is written. *)
Theorem empty_album_run_fails :
  getElementsByTagNameNS (Sample.feed []) _GPHOTO_NS "name" <> [] /\
  getElementsByTagNameNS (Sample.feed []) _GPHOTO_NS "id" <> [] /\
  getElementsByTagNameNS (Sample.feed []) _MEDIA_NS "content" = [] /\
  main (Sample.env []) (mkArgs "feed" 30 false) []
  = (Raise ZeroDivisionError,
     [Rmtree "/home/u/.local/share/backgrounds/abc123";
      Makedirs "/home/u/.local/share/backgrounds/abc123";
      Makedirs "/home/u/.local/share/gnome-background-properties/"],
     []).
Proof.
  repeat split; try discriminate; reflexivity.
Qed.

(** * Further properties of the script *)

(** ** The schedule builder on any input *)

(** X1. [_create_slideshow_xml] raises on no input, the empty list and the
    negative durations included: the indices [index + 1] and [0] it reads
    are always inside the list. The document is a [background] element that
    opens with the start time block (midnight of 2015-01-01), has two more
    children per image, and shows the images it was given, in their
    order. *)
Theorem slideshow_xml_never_raises (images : list string) (D : Z) :
  exists tree,
    _create_slideshow_xml images D = Ok tree /\
    tag (getroot tree) = "background" /\
    nth_error (children (getroot tree)) 0 = Some starttime_block /\
    starttime_block
    = Elem "starttime" None
        [Elem "year" (Some "2015") []; Elem "month" (Some "01") [];
         Elem "day" (Some "01") []; Elem "hour" (Some "00") [];
         Elem "minute" (Some "00") []; Elem "second" (Some "00") []] /\
    List.length (children (getroot tree)) = 1 + 2 * List.length images /\
    schedule_images tree = images.
Proof.
  eexists. split; [apply create_slideshow_xml_ok|].
  split; [reflexivity|]. split; [reflexivity|]. split; [reflexivity|].
  split; [|apply schedule_images_ok].
  cbn [getroot children List.length]. f_equal.
  rewrite <- (schedule_length images D).
  induction (schedule images D) as [|p ps IH]; [reflexivity|].
  cbn [flat_map unpair app List.length]. rewrite IH. lia.
Qed.

Lemma successor_rotation (x : string) (rest : list string) (i : nat) :
  i < S (List.length rest) ->
  nth_error (rest ++ [x]) i = Some (successor (x :: rest) i).
Proof.
  intros Hi. unfold successor. cbn [List.length].
  destruct (Nat.eq_dec i (List.length rest)) as [->|Hne].
  - rewrite Nat.Div0.mod_same. cbn [nth].
    rewrite nth_error_app2 by lia. now rewrite Nat.sub_diag.
  - rewrite Nat.mod_small by lia. cbn [nth].
    rewrite nth_error_app1 by lia.
    apply nth_error_nth'. lia.
Qed.

(** X2. The targets of the cross-fades are the images rotated by one place:
    the second image first, the first image last. *)
Theorem transition_targets_are_rotated
    (image : string) (rest : list string) (D : Z) :
  exists tree,
    _create_slideshow_xml (image :: rest) D = Ok tree /\
    map (fun p => findtext (snd p) "to") (schedule_pairs tree)
    = map Some (rest ++ [image]).
Proof.
  eexists. split; [apply create_slideshow_xml_ok|].
  rewrite schedule_pairs_ok.
  apply nth_error_ext. intros i.
  rewrite !nth_error_map, schedule_nth_error.
  destruct (Nat.lt_ge_cases i (S (List.length rest))) as [Hi|Hi].
  - rewrite (successor_rotation image rest i Hi).
    destruct (nth_error (image :: rest) i) as [x|] eqn:E.
    + cbn [option_map]. now rewrite item_pair_transition.
    + apply nth_error_None in E. cbn [List.length] in E. lia.
  - assert (H1 : nth_error (image :: rest) i = None)
      by (apply nth_error_None; cbn [List.length]; lia).
    assert (H2 : nth_error (rest ++ [image]) i = None)
      by (apply nth_error_None; rewrite length_app; cbn [List.length]; lia).
    now rewrite H1, H2.
Qed.

(** X3. An album of one image fades from that image to itself. *)
Theorem single_image_fades_to_itself (image : string) (D : Z) :
  exists tree static transition,
    _create_slideshow_xml [image] D = Ok tree /\
    schedule_pairs tree = [(static, transition)] /\
    findtext static "file" = Some image /\
    findtext transition "from" = Some image /\
    findtext transition "to" = Some image.
Proof.
  do 3 eexists. split; [reflexivity|]. repeat split.
Qed.

Lemma cycle_seconds_schedule (images : list string) (D : Z) (ps : list (Element * Element)) :
  (forall p, In p ps ->
             exists image next_image,
               p = _create_slideshow_xml_item_pair image next_image D) ->
  fold_right (fun p acc =>
                match duration_seconds (fst p), duration_seconds (snd p), acc
                with
                | Some s, Some t, Some a => Some (s + t + a)%Z
                | _, _, _ => None
                end) (Some 0%Z) ps
  = Some (Z.of_nat (List.length ps) * (D * 60))%Z.
Proof.
  induction ps as [|p ps IH]; intros Hps; [reflexivity|].
  cbn [fold_right]. rewrite IH by (intros q Hq; apply Hps; now right).
  destruct (Hps p (or_introl eq_refl)) as (image & next_image & ->).
  destruct (item_pair_durations image next_image D) as [-> ->].
  f_equal. cbn [List.length]. lia.
Qed.

(** X4. One whole cycle of the slideshow lasts the number of images times
    [duration_minutes * 60] seconds: the five seconds of each cross-fade
    are taken out of the image's time, not added to it. *)
Theorem cycle_lasts_images_times_duration (images : list string) (D : Z) :
  exists tree,
    _create_slideshow_xml images D = Ok tree /\
    cycle_seconds tree = Some (len images * (D * 60))%Z.
Proof.
  eexists. split; [apply create_slideshow_xml_ok|].
  unfold cycle_seconds. rewrite schedule_pairs_ok.
  rewrite (cycle_seconds_schedule images D)
    by (intros p Hp; now apply schedule_In in Hp).
  unfold len. now rewrite schedule_length.
Qed.

(** X5. The static duration written for an image is positive exactly when
    the duration asked for is at least one minute. *)
Theorem static_duration_positive_iff (image next_image : string) (D : Z) :
  exists s,
    duration_seconds (fst (_create_slideshow_xml_item_pair image next_image D))
    = Some s /\
    ((0 < s)%Z <-> (1 <= D)%Z).
Proof.
  exists (D * 60 - 5)%Z.
  split; [apply item_pair_durations|lia].
Qed.

(** ** Cutting and storing *)

(** X6. [rsplit('/', 1)] loses nothing: its parts, put together again with
    the separator, are the string it was given; they are one part, the
    string itself, or two, the second one free of the separator. *)
Theorem rsplit1_round_trip (c : ascii) (s : string) :
  join (String c "") (rsplit1 c s) = s /\
  ((contains c s = false /\ rsplit1 c s = [s]) \/
   (contains c s = true /\
    exists b f, rsplit1 c s = [b; f] /\ contains c f = false)).
Proof.
  destruct (contains c s) eqn:Hc.
  - destruct (rsplit1_with c s Hc) as (b & f & -> & Hf & Hcut).
    rewrite Hcut. split; [reflexivity|].
    right. split; [reflexivity|]. now exists b, f.
  - rewrite (rsplit1_without c s Hc). split; [reflexivity|]. now left.
Qed.

Lemma url_parts_cut (base filename : string) :
  contains "/" filename = false ->
  url_parts (base ++ "/" ++ filename) = (base, filename).
Proof.
  intros Hf. unfold url_parts.
  change (base ++ "/" ++ filename)%string
    with (base ++ String "/" filename)%string.
  now rewrite (rsplit1_app "/" base filename Hf).
Qed.

(** [_save_image] on any URL: the image stored, or the exception and
    nothing done. *)
Lemma save_image_run (env : Env) (image_url album_dir : string) (g : Rng) :
  _save_image env image_url album_dir g =
  if fetchable env image_url
  then (Ok (local_filepath_of album_dir image_url),
        [Urlretrieve (download_url_of image_url)
           (local_filepath_of album_dir image_url)], g)
  else (Raise (save_image_error image_url), [], g).
Proof.
  unfold fetchable, save_image_error.
  destruct (contains "/" image_url) eqn:Hc.
  - destruct (rsplit1_with "/" image_url Hc) as (b & f & -> & Hf & _).
    change (b ++ String "/" f)%string with (b ++ "/" ++ f)%string.
    rewrite (save_image_cut env b f album_dir g Hf). cbv zeta.
    unfold download_url_of, local_filepath_of.
    rewrite (url_parts_cut b f Hf). cbn [fst snd andb]. reflexivity.
  - cbn [andb]. unfold _save_image, bind, lift.
    now rewrite (rsplit1_without "/" image_url Hc).
Qed.

(** X7. Two source URLs with the same last segment are stored at the same
    local path, whatever comes before the segment: the later download
    replaces the earlier one. *)
Theorem same_filename_same_local_path
    (env : Env) (base1 base2 filename album_dir : string) (g1 g2 : Rng) :
  contains "/" filename = false ->
  urlretrieve_ok env (base1 ++ "/s4096-d/" ++ filename) = true ->
  urlretrieve_ok env (base2 ++ "/s4096-d/" ++ filename) = true ->
  exists path,
    _save_image env (base1 ++ "/" ++ filename) album_dir g1
    = (Ok path, [Urlretrieve (base1 ++ "/s4096-d/" ++ filename) path], g1) /\
    _save_image env (base2 ++ "/" ++ filename) album_dir g2
    = (Ok path, [Urlretrieve (base2 ++ "/s4096-d/" ++ filename) path], g2).
Proof.
  intros Hf H1 H2. exists (os_path_join album_dir filename).
  rewrite !save_image_cut by assumption. cbv zeta.
  now rewrite H1, H2.
Qed.

Lemma same_filename_same_local_path_witness :
  exists path,
    _save_image (Sample.env []) "https://a.example.com/x/pic.jpg" "/bg/1" []
    = (Ok path, [Urlretrieve "https://a.example.com/x/s4096-d/pic.jpg" path],
       []) /\
    _save_image (Sample.env []) "https://b.example.com/y/pic.jpg" "/bg/1" [4]
    = (Ok path, [Urlretrieve "https://b.example.com/y/s4096-d/pic.jpg" path],
       [4]).
Proof.
  apply (same_filename_same_local_path (Sample.env [])
           "https://a.example.com/x" "https://b.example.com/y" "pic.jpg"
           "/bg/1" [] [4]); reflexivity.
Defined.

(** ** The download loop *)

Lemma first_failure {A : Type} (f : A -> bool) (l : list A) :
  forallb f l = true \/
  exists pre x post,
    l = pre ++ x :: post /\ forallb f pre = true /\ f x = false.
Proof.
  induction l as [|a l IH]; [now left|].
  cbn [forallb]. destruct (f a) eqn:Ha.
  - destruct IH as [IH|(pre & x & post & -> & Hpre & Hx)]; [now left|].
    right. exists (a :: pre), x, post. cbn [forallb app].
    now rewrite Ha, Hpre.
  - right. now exists [], a, l.
Qed.

(** Over entries that can all be served, the loop downloads each one and
    prints a progress line after it. *)
Lemma download_loop_run (env : Env) (total : Z) (album_dir : string)
    (todo : list (nat * Node)) (images : list string) (g : Rng) :
  total <> 0%Z ->
  forallb (fun p => fetchable env (getAttribute (snd p) "url")) todo = true ->
  download_loop env total album_dir todo images g =
  (Ok (images ++ map (fun p => local_filepath_of album_dir
                                 (getAttribute (snd p) "url")) todo),
   download_effects total album_dir todo, g).
Proof.
  intros Htotal. revert images.
  induction todo as [|[index node] todo IH]; intros images Hall.
  - cbn. now rewrite app_nil_r.
  - cbn [forallb snd] in Hall. apply andb_true_iff in Hall.
    destruct Hall as [Hnode Hall].
    cbn [download_loop]. unfold bind at 1.
    rewrite save_image_run, Hnode.
    unfold bind at 1. unfold _print_download_progress at 1.
    destruct (Z.eqb_spec total 0) as [E|_]; [contradiction|].
    unfold emit at 1.
    rewrite IH by assumption.
    cbn [map download_effects flat_map fst snd app].
    now rewrite <- app_assoc.
Qed.

(** At the first entry that cannot be served the loop stops, with the
    exception of [_save_image], after the entries before it and before
    any of those behind. *)
Lemma download_loop_stop (env : Env) (total : Z) (album_dir : string)
    (pre post : list (nat * Node)) (index : nat) (node : Node)
    (images : list string) (g : Rng) :
  total <> 0%Z ->
  forallb (fun p => fetchable env (getAttribute (snd p) "url")) pre = true ->
  fetchable env (getAttribute node "url") = false ->
  download_loop env total album_dir (pre ++ (index, node) :: post) images g =
  (Raise (save_image_error (getAttribute node "url")),
   download_effects total album_dir pre, g).
Proof.
  intros Htotal. revert images.
  induction pre as [|[i n] pre IH]; intros images Hall Hnode.
  - cbn [app download_loop]. unfold bind at 1.
    now rewrite save_image_run, Hnode.
  - cbn [forallb snd] in Hall. apply andb_true_iff in Hall.
    destruct Hall as [Hn Hall].
    cbn [app download_loop]. unfold bind at 1.
    rewrite save_image_run, Hn.
    unfold bind at 1. unfold _print_download_progress at 1.
    destruct (Z.eqb_spec total 0) as [E|_]; [contradiction|].
    unfold emit at 1.
    rewrite IH by assumption.
    reflexivity.
Qed.

(** ** The run, stage by stage *)

Lemma enumerate_from_app {A : Type} (l1 l2 : list A) (s : nat) :
  enumerate_from s (l1 ++ l2)
  = enumerate_from s l1 ++ enumerate_from (s + List.length l1) l2.
Proof.
  revert s. induction l1 as [|x l1 IH]; intros s; cbn [app enumerate_from].
  - now rewrite Nat.add_0_r.
  - rewrite IH. cbn [List.length]. now rewrite Nat.add_succ_r.
Qed.

Lemma forallb_enumerate_from {A : Type} (f : A -> bool) (l : list A)
    (s : nat) :
  forallb (fun p => f (snd p)) (enumerate_from s l) = forallb f l.
Proof.
  revert s. induction l as [|x l IH]; intros s; [reflexivity|].
  cbn [enumerate_from forallb snd]. now rewrite IH.
Qed.

Lemma map_enumerate_from {A B : Type} (f : A -> B) (l : list A) (s : nat) :
  map (fun p => f (snd p)) (enumerate_from s l) = map f l.
Proof.
  revert s. induction l as [|x l IH]; intros s; [reflexivity|].
  cbn [enumerate_from map snd]. now rewrite IH.
Qed.

(** Until the album is identified nothing is touched: the run either
    stops there, with no effect, or knows the feed, the name and the
    identifier of the album. *)
Lemma main_identity (env : Env) (args : Args) (g : Rng) :
  (exists e, main env args g = (Raise e, [], g)) \/
  (exists album_xml name_node album_name id_node album_id,
     urlopen_parse env (album_url args) = Ok album_xml /\
     getitem (getElementsByTagNameNS album_xml _GPHOTO_NS "name") 0
     = Ok name_node /\
     firstChild_nodeValue name_node = Ok album_name /\
     getitem (getElementsByTagNameNS album_xml _GPHOTO_NS "id") 0
     = Ok id_node /\
     firstChild_nodeValue id_node = Ok (Some album_id)).
Proof.
  unfold main, bind, lift.
  destruct (urlopen_parse env (album_url args)) as [album_xml|e] eqn:Hfeed;
    [|left; now exists e].
  destruct (getitem (getElementsByTagNameNS album_xml _GPHOTO_NS "name") 0)
    as [name_node|e] eqn:Hname; [|left; now exists e].
  destruct (firstChild_nodeValue name_node) as [album_name|e] eqn:Hnv;
    [|left; now exists e].
  destruct (getitem (getElementsByTagNameNS album_xml _GPHOTO_NS "id") 0)
    as [id_node|e] eqn:Hid; [|left; now exists e].
  destruct (firstChild_nodeValue id_node) as [[album_id|]|e] eqn:Hiv;
    [|left; now exists AttributeError|left; now exists e].
  right. now exists album_xml, name_node, album_name, id_node, album_id.
Qed.

Lemma after_after {A : Type} (t1 t2 : list Effect)
    (o : result A * list Effect * Rng) :
  after t1 (after t2 o) = after (t1 ++ t2) o.
Proof.
  destruct o as [[r t] g]. unfold after. now rewrite app_assoc.
Qed.

Lemma bind_run {A B : Type} (m : M A) (k : A -> M B) (g g1 : Rng) (a : A)
    (t : list Effect) :
  m g = (Ok a, t, g1) -> bind m k g = after t (k a g1).
Proof. intros H. unfold bind. now rewrite H. Qed.

Lemma bind_stop {A B : Type} (m : M A) (k : A -> M B) (g g1 : Rng) (e : exn)
    (t : list Effect) :
  m g = (Raise e, t, g1) -> bind m k g = (Raise e, t, g1).
Proof. intros H. unfold bind. now rewrite H. Qed.

Lemma bind_lift {A B : Type} (r : result A) (k : A -> M B) (g : Rng) :
  bind (lift r) k g
  = match r with Ok a => k a g | Raise e => (Raise e, [], g) end.
Proof.
  unfold bind, lift. destruct r as [a|e]; [|reflexivity].
  now destruct (k a g) as [[r t] g'].
Qed.

Lemma bind_ret {A B : Type} (a : A) (k : A -> M B) (g : Rng) :
  bind (ret a) k g = k a g.
Proof.
  unfold bind, ret. now destruct (k a g) as [[r t] g'].
Qed.

Lemma bind_emit {B : Type} (e : Effect) (k : unit -> M B) (g : Rng) :
  bind (emit e) k g = after [e] (k tt g).
Proof. reflexivity. Qed.

Lemma except_makedirs_run (env : Env) (path : string) (g : Rng) :
  except_OSError_pass (makedirs env path) g
  = (Ok tt, if makedirs_ok env path then [Makedirs path] else [], g).
Proof.
  unfold except_OSError_pass, makedirs. now destruct (makedirs_ok env path).
Qed.

Section IdentifiedAlbum.

Variables (env : Env) (args : Args).
Variables (album_xml : Document) (name_node id_node : Node).
Variables (album_name : option string) (album_id : string).

Hypothesis feed_fetched :
  urlopen_parse env (album_url args) = Ok album_xml.
Hypothesis name_found :
  getitem (getElementsByTagNameNS album_xml _GPHOTO_NS "name") 0
  = Ok name_node.
Hypothesis name_read : firstChild_nodeValue name_node = Ok album_name.
Hypothesis id_found :
  getitem (getElementsByTagNameNS album_xml _GPHOTO_NS "id") 0 = Ok id_node.
Hypothesis id_read : firstChild_nodeValue id_node = Ok (Some album_id).

Local Abbreviation album_dir := (album_dir_of env album_id).
Local Abbreviation media := (media_content_elements_of album_xml).
Local Abbreviation total := (len (media_content_elements_of album_xml)).

(** The run of an identified album, as one case analysis. *)
Lemma main_identified (g : Rng) :
  main env args g =
  if makedirs_ok env album_dir then
    if (total =? 0)%Z
    then (Raise ZeroDivisionError,
          [Rmtree album_dir; Makedirs album_dir]
          ++ properties_dir_effects env, g)
    else
      match download_loop env total album_dir (enumerate media) [] g with
      | (Ok images, t, g1) =>
          match (if randomize args then shuffle images else ret images) g1
          with
          | (Ok images', t', g2) =>
              (fst (descriptor_outcome env album_name album_id
                      (slideshow_document images' (duration_minutes args))),
               [Rmtree album_dir; Makedirs album_dir]
               ++ properties_dir_effects env ++ [Progress total 0] ++ t
               ++ [PrintLine ""] ++ t'
               ++ snd (descriptor_outcome env album_name album_id
                         (slideshow_document images'
                            (duration_minutes args))),
               g2)
          | (Raise e, t', g2) =>
              (Raise e,
               [Rmtree album_dir; Makedirs album_dir]
               ++ properties_dir_effects env ++ [Progress total 0] ++ t
               ++ [PrintLine ""] ++ t', g2)
          end
      | (Raise e, t, g1) =>
          (Raise e,
           [Rmtree album_dir; Makedirs album_dir]
           ++ properties_dir_effects env ++ [Progress total 0] ++ t, g1)
      end
  else (Raise OSError, [Rmtree album_dir], g).
Proof.
  unfold main.
  rewrite bind_lift, feed_fetched, bind_lift, name_found, bind_lift, name_read.
  rewrite bind_lift, id_found, bind_lift, id_read, bind_ret.
  cbv zeta.
  fold (album_dir_of env album_id). fold (media_content_elements_of album_xml).
  rewrite bind_emit. unfold makedirs at 1.
  destruct (makedirs_ok env album_dir); [|reflexivity].
  rewrite bind_emit, after_after.
  rewrite (bind_run _ _ _ _ _ _ (except_makedirs_run env _ g)), after_after.
  unfold _print_download_progress at 1.
  destruct (Z.eqb_spec total 0) as [E|E].
  - cbn [app]. unfold bind, raise, after. now rewrite app_nil_r.
  - rewrite bind_emit, after_after.
    destruct (download_loop env total album_dir (enumerate media) [] g)
      as [[[images|e] t] g1] eqn:Hdl.
    + rewrite (bind_run _ _ _ _ _ _ Hdl), after_after.
      rewrite bind_emit, after_after.
      destruct ((if randomize args then shuffle images else ret images) g1)
        as [[[images'|e] t'] g2] eqn:Hsh.
      * rewrite (bind_run _ _ _ _ _ _ Hsh), after_after.
        rewrite bind_lift, create_slideshow_xml_ok.
        fold (slideshow_document images' (duration_minutes args)).
        fold (slideshow_path_of env album_id).
        fold (registration_path_of env album_id).
        unfold descriptor_outcome, descriptor_effects_upto,
          descriptor_effects, write_file.
        destruct (open_ok env (slideshow_path_of env album_id));
          [destruct (open_ok env (registration_path_of env album_id))|];
          unfold bind, emit, raise, after; cbn [app fst snd firstn];
          rewrite <- !app_assoc; reflexivity.
      * rewrite (bind_stop _ _ _ _ _ _ Hsh). unfold after.
        cbn [app]. rewrite <- !app_assoc. reflexivity.
    + rewrite (bind_stop _ _ _ _ _ _ Hdl). unfold after.
      cbn [app]. rewrite <- !app_assoc. reflexivity.
Qed.

Lemma total_nonzero : media <> [] -> total <> 0%Z.
Proof.
  unfold len. destruct media; [congruence|]. cbn [List.length]. lia.
Qed.

(** The run that gets through: every stage of it. *)
Lemma main_completes (g : Rng) :
  makedirs_ok env album_dir = true ->
  media <> [] ->
  forallb (fun n => fetchable env (getAttribute n "url")) media = true ->
  open_ok env (slideshow_path_of env album_id) = true ->
  open_ok env (registration_path_of env album_id) = true ->
  exists images' g',
    (if randomize args
     then shuffle (map (fun n => local_filepath_of album_dir
                                   (getAttribute n "url")) media)
     else ret (map (fun n => local_filepath_of album_dir
                               (getAttribute n "url")) media)) g
    = (Ok images', [], g') /\
    main env args g =
    (Ok tt,
     [Rmtree album_dir; Makedirs album_dir]
     ++ properties_dir_effects env ++ [Progress total 0]
     ++ download_effects total album_dir (enumerate media)
     ++ [PrintLine ""]
     ++ descriptor_effects env album_name album_id
          (slideshow_document images' (duration_minutes args)),
     g').
Proof.
  intros Hmk Hmedia Hall Hopen1 Hopen2.
  pose proof (total_nonzero Hmedia) as Htotal.
  rewrite main_identified, Hmk.
  destruct (Z.eqb_spec total 0) as [E|_]; [contradiction|].
  rewrite (download_loop_run env total album_dir (enumerate media) [] g Htotal)
    by (unfold enumerate;
        now rewrite (forallb_enumerate_from
                       (fun n => fetchable env (getAttribute n "url")))).
  cbn [app]. unfold enumerate.
  rewrite (map_enumerate_from
             (fun n => local_filepath_of album_dir (getAttribute n "url"))).
  assert (Hsh : exists images' g',
            (if randomize args
             then shuffle (map (fun n => local_filepath_of album_dir
                                           (getAttribute n "url")) media)
             else ret (map (fun n => local_filepath_of album_dir
                                       (getAttribute n "url")) media)) g
            = (Ok images', [], g')).
  { destruct (randomize args).
    - destruct (shuffle_permutation
                  (map (fun n => local_filepath_of album_dir
                                   (getAttribute n "url")) media) g)
        as (x' & g' & Hx & _). now exists x', g'.
    - now eexists _, _. }
  destruct Hsh as (images' & g' & Hsh).
  exists images', g'. split; [exact Hsh|].
  rewrite Hsh. unfold descriptor_outcome. rewrite Hopen1, Hopen2.
  reflexivity.
Qed.

(** The run that downloads everything: all but its last stage. *)
Lemma main_downloads_all (g : Rng) :
  makedirs_ok env album_dir = true ->
  media <> [] ->
  forallb (fun n => fetchable env (getAttribute n "url")) media = true ->
  exists images' g',
    (if randomize args
     then shuffle (map (fun n => local_filepath_of album_dir
                                   (getAttribute n "url")) media)
     else ret (map (fun n => local_filepath_of album_dir
                               (getAttribute n "url")) media)) g
    = (Ok images', [], g') /\
    main env args g =
    (fst (descriptor_outcome env album_name album_id
            (slideshow_document images' (duration_minutes args))),
     [Rmtree album_dir; Makedirs album_dir]
     ++ properties_dir_effects env ++ [Progress total 0]
     ++ download_effects total album_dir (enumerate media)
     ++ [PrintLine ""]
     ++ snd (descriptor_outcome env album_name album_id
               (slideshow_document images' (duration_minutes args))),
     g').
Proof.
  intros Hmk Hmedia Hall.
  pose proof (total_nonzero Hmedia) as Htotal.
  rewrite main_identified, Hmk.
  destruct (Z.eqb_spec total 0) as [E|_]; [contradiction|].
  rewrite (download_loop_run env total album_dir (enumerate media) [] g Htotal)
    by (unfold enumerate;
        now rewrite (forallb_enumerate_from
                       (fun n => fetchable env (getAttribute n "url")))).
  cbn [app]. unfold enumerate.
  rewrite (map_enumerate_from
             (fun n => local_filepath_of album_dir (getAttribute n "url"))).
  assert (Hsh : exists images' g',
            (if randomize args
             then shuffle (map (fun n => local_filepath_of album_dir
                                           (getAttribute n "url")) media)
             else ret (map (fun n => local_filepath_of album_dir
                                       (getAttribute n "url")) media)) g
            = (Ok images', [], g')).
  { destruct (randomize args).
    - destruct (shuffle_permutation
                  (map (fun n => local_filepath_of album_dir
                                   (getAttribute n "url")) media) g)
        as (x' & g' & Hx & _). now exists x', g'.
    - now eexists _, _. }
  destruct Hsh as (images' & g' & Hsh).
  exists images', g'. split; [exact Hsh|].
  rewrite Hsh. reflexivity.
Qed.

(** The run that meets an image it cannot serve. *)
Lemma main_stops_at (g : Rng) (pre post : list Node) (node : Node) :
  makedirs_ok env album_dir = true ->
  media = pre ++ node :: post ->
  forallb (fun n => fetchable env (getAttribute n "url")) pre = true ->
  fetchable env (getAttribute node "url") = false ->
  main env args g =
  (Raise (save_image_error (getAttribute node "url")),
   [Rmtree album_dir; Makedirs album_dir]
   ++ properties_dir_effects env ++ [Progress total 0]
   ++ download_effects total album_dir (enumerate pre),
   g).
Proof.
  intros Hmk Hsplit Hpre Hnode.
  assert (Htotal : total <> 0%Z)
    by (apply total_nonzero; rewrite Hsplit; now destruct pre).
  rewrite main_identified, Hmk.
  destruct (Z.eqb_spec total 0) as [E|_]; [contradiction|].
  unfold enumerate at 1. rewrite Hsplit at 2.
  rewrite enumerate_from_app. cbn [enumerate_from].
  rewrite (download_loop_stop env total album_dir (enumerate_from 0 pre)
             (enumerate_from (S (0 + List.length pre)) post)
             (0 + List.length pre) node [] g Htotal)
    by (try assumption;
        now rewrite (forallb_enumerate_from
                       (fun n => fetchable env (getAttribute n "url")))).
  reflexivity.
Qed.

End IdentifiedAlbum.

(** The four ways the run of an identified album can go. *)
Lemma main_outcomes (env : Env) (args : Args) (album_xml : Document)
    (name_node id_node : Node) (album_name : option string)
    (album_id : string) (g : Rng) :
  urlopen_parse env (album_url args) = Ok album_xml ->
  getitem (getElementsByTagNameNS album_xml _GPHOTO_NS "name") 0
  = Ok name_node ->
  firstChild_nodeValue name_node = Ok album_name ->
  getitem (getElementsByTagNameNS album_xml _GPHOTO_NS "id") 0 = Ok id_node ->
  firstChild_nodeValue id_node = Ok (Some album_id) ->
  let album_dir := album_dir_of env album_id in
  let media := media_content_elements_of album_xml in
  let served := fun n => fetchable env (getAttribute n "url") in
  let local := fun n => local_filepath_of album_dir (getAttribute n "url") in
  let opening :=
    [Rmtree album_dir; Makedirs album_dir] ++ properties_dir_effects env in
  (makedirs_ok env album_dir = false /\
   main env args g = (Raise OSError, [Rmtree album_dir], g)) \/
  (makedirs_ok env album_dir = true /\ media = [] /\
   main env args g = (Raise ZeroDivisionError, opening, g)) \/
  (makedirs_ok env album_dir = true /\
   exists pre node post,
     media = pre ++ node :: post /\ forallb served pre = true /\
     served node = false /\
     main env args g =
     (Raise (save_image_error (getAttribute node "url")),
      opening ++ [Progress (len media) 0]
      ++ download_effects (len media) album_dir (enumerate pre), g)) \/
  (makedirs_ok env album_dir = true /\ media <> [] /\
   forallb served media = true /\
   exists images' g',
     (if randomize args then shuffle (map local media)
      else ret (map local media)) g = (Ok images', [], g') /\
     main env args g =
     (fst (descriptor_outcome env album_name album_id
             (slideshow_document images' (duration_minutes args))),
      opening ++ [Progress (len media) 0]
      ++ download_effects (len media) album_dir (enumerate media)
      ++ [PrintLine ""]
      ++ snd (descriptor_outcome env album_name album_id
                (slideshow_document images' (duration_minutes args))),
      g')).
Proof.
  intros Hfeed Hname Hnv Hid Hiv album_dir media served local opening.
  destruct (makedirs_ok env album_dir) eqn:Hmk.
  - right. destruct media as [|n0 rest] eqn:Hmedia.
    + left. split; [reflexivity|]. split; [reflexivity|].
      rewrite (main_identified env args album_xml name_node id_node
                 album_name album_id Hfeed Hname Hnv Hid Hiv g).
      fold album_dir. rewrite Hmk. fold media. rewrite Hmedia.
      reflexivity.
    + right. rewrite <- Hmedia.
      destruct (first_failure served media)
        as [Hall|(pre & node & post & Hsplit & Hpre & Hnode)].
      * right. split; [reflexivity|].
        assert (Hne : media <> []) by (rewrite Hmedia; discriminate).
        split; [exact Hne|]. split; [exact Hall|].
        destruct (main_downloads_all env args album_xml name_node id_node
                    album_name album_id Hfeed Hname Hnv Hid Hiv g Hmk Hne Hall)
          as (images' & g' & Hsh & Hrun).
        exists images', g'. split; [exact Hsh|].
        rewrite Hrun. unfold opening. cbn [app].
        rewrite <- ?app_assoc. reflexivity.
      * left. split; [reflexivity|].
        exists pre, node, post. repeat split; try assumption.
        rewrite (main_stops_at env args album_xml name_node id_node
                   album_name album_id Hfeed Hname Hnv Hid Hiv g pre post node
                   Hmk Hsplit Hpre Hnode).
        unfold opening. cbn [app]. rewrite <- ?app_assoc. reflexivity.
  - left. split; [reflexivity|].
    rewrite (main_identified env args album_xml name_node id_node
               album_name album_id Hfeed Hname Hnv Hid Hiv g).
    fold album_dir. now rewrite Hmk.
Qed.

(** ** What the trace of a run holds *)

Lemma written_app (t1 t2 : list Effect) :
  written (t1 ++ t2) = written t1 ++ written t2.
Proof. unfold written. apply flat_map_app. Qed.

Lemma progress_lines_app (t1 t2 : list Effect) :
  progress_lines (t1 ++ t2) = progress_lines t1 ++ progress_lines t2.
Proof. unfold progress_lines. apply flat_map_app. Qed.

Lemma properties_dir_effects_quiet (env : Env) :
  written (properties_dir_effects env) = [] /\
  downloaded (properties_dir_effects env) = [] /\
  progress_lines (properties_dir_effects env) = [].
Proof.
  unfold properties_dir_effects.
  destruct (makedirs_ok env _); repeat split.
Qed.

Lemma download_effects_trace (total : Z) (album_dir : string)
    (l : list Node) (s : nat) :
  written (download_effects total album_dir (enumerate_from s l)) = [] /\
  downloaded (download_effects total album_dir (enumerate_from s l))
  = map (fun n => local_filepath_of album_dir (getAttribute n "url")) l /\
  progress_lines (download_effects total album_dir (enumerate_from s l))
  = map (fun k => (total, Z.of_nat k)) (seq (S s) (List.length l)).
Proof.
  revert s. induction l as [|n l IH]; intros s; [now repeat split|].
  destruct (IH (S s)) as (Hw & Hd & Hp).
  cbn [enumerate_from download_effects flat_map fst snd app].
  unfold download_effects in Hw, Hd, Hp.
  repeat split.
  - exact Hw.
  - cbn [downloaded flat_map app map]. unfold downloaded in Hd.
    now rewrite Hd.
  - cbn [progress_lines flat_map app List.length seq map].
    unfold progress_lines in Hp. rewrite Hp.
    do 2 f_equal. lia.
Qed.

(** The trace of a run, read off the equation of its outcome. *)
Ltac trace_of H :=
  apply (f_equal (fun o => snd (fst o))) in H; cbn [fst snd] in H;
  subst.

(** How the last stage can end. *)
Lemma descriptor_outcome_cases (env : Env) (album_name : option string)
    (album_id : string) (tree : ElementTree) :
  (open_ok env (slideshow_path_of env album_id) = true /\
   open_ok env (registration_path_of env album_id) = true /\
   descriptor_outcome env album_name album_id tree
   = (Ok tt, descriptor_effects env album_name album_id tree)) \/
  (open_ok env (slideshow_path_of env album_id) = true /\
   open_ok env (registration_path_of env album_id) = false /\
   descriptor_outcome env album_name album_id tree
   = (Raise IOError,
      descriptor_effects_upto 3 env album_name album_id tree)) \/
  (open_ok env (slideshow_path_of env album_id) = false /\
   descriptor_outcome env album_name album_id tree
   = (Raise IOError,
      descriptor_effects_upto 1 env album_name album_id tree)).
Proof.
  unfold descriptor_outcome.
  destruct (open_ok env (slideshow_path_of env album_id));
    [destruct (open_ok env (registration_path_of env album_id))|]; tauto.
Qed.

(** X8. A run that raises has never written the registration document. It
    has written nothing at all, or the slideshow alone, and that only when
    it raises the [IOError] of a registration file that cannot be opened
    (the properties directory may be missing, its creation having failed
    silently). *)
Theorem failed_run_never_registers
    (env : Env) (args : Args) (g g' : Rng) (e : exn)
    (effects : list Effect) :
  main env args g = (Raise e, effects, g') ->
  written effects = [] \/
  exists album_id,
    e = IOError /\
    open_ok env
      (os_path_join (_BACKGROUND_PROPERTIES_DIR env) (album_id ++ ".xml"))
    = false /\
    written effects
    = [os_path_join (os_path_join (_BACKGROUNDS_DIR env) album_id)
         "slideshow.xml"].
Proof.
  intros Hrun.
  destruct (main_identity env args g)
    as [[e0 Hstop]
       |(album_xml & name_node & album_name & id_node & album_id
         & Hfeed & Hname & Hnv & Hid & Hiv)].
  - left. rewrite Hstop in Hrun. now injection Hrun as _ <- _.
  - destruct (properties_dir_effects_quiet env) as (Hw & _ & _).
    destruct (main_outcomes env args album_xml name_node id_node album_name
                album_id g Hfeed Hname Hnv Hid Hiv)
      as [(_ & H)|[(_ & _ & H)|[(_ & pre & node & post & _ & _ & _ & H)
         |(_ & _ & _ & images' & g1 & _ & H)]]];
      rewrite H in Hrun.
    + left. trace_of Hrun. reflexivity.
    + left. trace_of Hrun. now rewrite written_app, Hw.
    + left. trace_of Hrun. unfold enumerate. rewrite !written_app, Hw.
      now destruct (download_effects_trace
                      (len (media_content_elements_of album_xml))
                      (album_dir_of env album_id) pre 0) as (-> & _ & _).
    + destruct (download_effects_trace
                  (len (media_content_elements_of album_xml))
                  (album_dir_of env album_id)
                  (media_content_elements_of album_xml) 0) as (Hw' & _ & _).
      destruct (descriptor_outcome_cases env album_name album_id
                  (slideshow_document images' (duration_minutes args)))
        as [(_ & _ & Ho)|[(_ & Hreg & Ho)|(_ & Ho)]];
        rewrite Ho in Hrun; cbn [fst snd] in Hrun.
      * discriminate Hrun.
      * right. exists album_id.
        assert (He : e = IOError) by congruence. split; [exact He|].
        split; [exact Hreg|].
        trace_of Hrun. unfold enumerate.
        rewrite !written_app, Hw, Hw'. reflexivity.
      * left. trace_of Hrun. unfold enumerate.
        rewrite !written_app, Hw, Hw'. reflexivity.
Qed.

Lemma failed_run_never_registers_witness :
  exists effects g',
    main Odd.env_without_properties_dir (mkArgs "feed" 30 false) []
    = (Raise IOError, effects, g') /\
    (written effects = [] \/
     exists album_id,
       IOError = IOError /\
       open_ok Odd.env_without_properties_dir
         (os_path_join
            (_BACKGROUND_PROPERTIES_DIR Odd.env_without_properties_dir)
            (album_id ++ ".xml"))
       = false /\
       written effects
       = [os_path_join
            (os_path_join (_BACKGROUNDS_DIR Odd.env_without_properties_dir)
               album_id) "slideshow.xml"]).
Proof.
  do 2 eexists.
  assert (Hrun :
    main Odd.env_without_properties_dir (mkArgs "feed" 30 false) []
    = (Raise IOError,
       snd (fst (main Odd.env_without_properties_dir
                   (mkArgs "feed" 30 false) [])),
       [])) by (vm_compute; reflexivity).
  split; [exact Hrun|].
  exact (failed_run_never_registers _ _ _ _ _ _ Hrun).
Defined.

(** X9. A run that completes has written two documents and no more: the
    slideshow in the album directory, then the registration named after
    the album identifier; it has also downloaded at least one image. *)
Theorem completed_run_writes_two_documents
    (env : Env) (args : Args) (g g' : Rng) (effects : list Effect) :
  main env args g = (Ok tt, effects, g') ->
  exists album_id,
    written effects
    = [os_path_join (os_path_join (_BACKGROUNDS_DIR env) album_id)
         "slideshow.xml";
       os_path_join (_BACKGROUND_PROPERTIES_DIR env) (album_id ++ ".xml")] /\
    downloaded effects <> [].
Proof.
  intros Hrun.
  destruct (main_identity env args g)
    as [[e0 Hstop]
       |(album_xml & name_node & album_name & id_node & album_id
         & Hfeed & Hname & Hnv & Hid & Hiv)].
  - rewrite Hstop in Hrun. discriminate Hrun.
  - destruct (properties_dir_effects_quiet env) as (Hw & Hd & _).
    destruct (main_outcomes env args album_xml name_node id_node album_name
                album_id g Hfeed Hname Hnv Hid Hiv)
      as [(_ & H)|[(_ & _ & H)|[(_ & pre & node & post & _ & _ & _ & H)
         |(_ & Hne & _ & images' & g1 & _ & H)]]];
      rewrite H in Hrun; try discriminate Hrun.
    destruct (descriptor_outcome_cases env album_name album_id
                (slideshow_document images' (duration_minutes args)))
      as [(_ & _ & Ho)|[(_ & _ & Ho)|(_ & Ho)]];
      rewrite Ho in Hrun; cbn [fst snd] in Hrun; try discriminate Hrun.
    trace_of Hrun.
    exists album_id.
    destruct (download_effects_trace
                (len (media_content_elements_of album_xml))
                (album_dir_of env album_id)
                (media_content_elements_of album_xml) 0) as (Hw' & Hd' & _).
    unfold enumerate.
    rewrite !written_app, !downloaded_app, Hw, Hd, Hw', Hd'.
    split; [reflexivity|].
    cbn. rewrite app_nil_r.
    destruct (media_content_elements_of album_xml); [congruence|discriminate].
Qed.

Lemma completed_run_writes_two_documents_witness :
  exists album_id,
    written
      (snd (fst (main (Sample.env Sample.three) (mkArgs "feed" 30 true) [2])))
    = [os_path_join
         (os_path_join (_BACKGROUNDS_DIR (Sample.env Sample.three)) album_id)
         "slideshow.xml";
       os_path_join (_BACKGROUND_PROPERTIES_DIR (Sample.env Sample.three))
         (album_id ++ ".xml")] /\
    downloaded
      (snd (fst (main (Sample.env Sample.three) (mkArgs "feed" 30 true) [2])))
    <> [].
Proof.
  apply (completed_run_writes_two_documents (Sample.env Sample.three)
           (mkArgs "feed" 30 true) [2] []).
  vm_compute. reflexivity.
Defined.

(** X10. The run completes exactly when the feed is fetched, the first
    name and identifier elements have a first child (a text one for the
    identifier), the album directory can be created, there is at least one
    image, every image URL has a '/' and a retrievable rewriting, and the
    slideshow file and the registration file can be opened for writing.
    Whether [os.makedirs] succeeds on the properties directory is not
    among the conditions (it fails on a directory that is there already),
    nor are the duration and the randomization. *)
Theorem run_completes_iff (env : Env) (args : Args) (g : Rng) :
  (exists effects g', main env args g = (Ok tt, effects, g')) <->
  (exists album_xml name_node album_name id_node album_id,
     urlopen_parse env (album_url args) = Ok album_xml /\
     getitem (getElementsByTagNameNS album_xml _GPHOTO_NS "name") 0
     = Ok name_node /\
     firstChild_nodeValue name_node = Ok album_name /\
     getitem (getElementsByTagNameNS album_xml _GPHOTO_NS "id") 0
     = Ok id_node /\
     firstChild_nodeValue id_node = Ok (Some album_id) /\
     makedirs_ok env (os_path_join (_BACKGROUNDS_DIR env) album_id) = true /\
     getElementsByTagNameNS album_xml _MEDIA_NS "content" <> [] /\
     forallb (fun n => fetchable env (getAttribute n "url"))
       (getElementsByTagNameNS album_xml _MEDIA_NS "content") = true /\
     open_ok env
       (os_path_join (os_path_join (_BACKGROUNDS_DIR env) album_id)
          "slideshow.xml") = true /\
     open_ok env
       (os_path_join (_BACKGROUND_PROPERTIES_DIR env) (album_id ++ ".xml"))
     = true).
Proof.
  split.
  - intros (effects & g' & Hrun).
    destruct (main_identity env args g)
      as [[e0 Hstop]
         |(album_xml & name_node & album_name & id_node & album_id
           & Hfeed & Hname & Hnv & Hid & Hiv)].
    + rewrite Hstop in Hrun. discriminate Hrun.
    + exists album_xml, name_node, album_name, id_node, album_id.
      repeat (split; [assumption|]).
      destruct (main_outcomes env args album_xml name_node id_node album_name
                  album_id g Hfeed Hname Hnv Hid Hiv)
        as [(_ & H)|[(_ & _ & H)|[(_ & pre & node & post & _ & _ & _ & H)
           |(Hmk & Hne & Hall & images' & g1 & _ & H)]]];
        try (rewrite H in Hrun; discriminate Hrun).
      destruct (descriptor_outcome_cases env album_name album_id
                  (slideshow_document images' (duration_minutes args)))
        as [(Ho1 & Ho2 & _)|[(_ & _ & Ho)|(_ & Ho)]];
        try (rewrite H, Ho in Hrun; discriminate Hrun).
      now repeat split.
  - intros (album_xml & name_node & album_name & id_node & album_id
            & Hfeed & Hname & Hnv & Hid & Hiv & Hmk & Hne & Hall
            & Hopen1 & Hopen2).
    destruct (main_completes env args album_xml name_node id_node
                album_name album_id Hfeed Hname Hnv Hid Hiv g Hmk Hne Hall
                Hopen1 Hopen2)
      as (images' & g' & _ & Hrun).
    eexists. exists g'. exact Hrun.
Qed.

Lemma run_completes_iff_witness :
  exists effects g',
    main (Odd.env (Sample.feed Sample.three) (fun _ => true)
            (fun path =>
               String.eqb path "/home/u/.local/share/backgrounds/abc123"))
      (mkArgs "feed" 0 true) [7]
    = (Ok tt, effects, g').
Proof.
  apply (proj2 (run_completes_iff _ _ _)).
  exists (Sample.feed Sample.three).
  do 4 eexists.
  repeat split; try reflexivity. discriminate.
Defined.



(** X12. A run that completes over N images has printed N + 1 progress
    lines, all with total N, counting 0, 1, ..., N: one before the first
    download and one after each. *)
Theorem progress_counts_up
    (env : Env) (args : Args) (g g' : Rng) (effects : list Effect) :
  main env args g = (Ok tt, effects, g') ->
  progress_lines effects
  = map (fun k => (len (downloaded effects), Z.of_nat k))
      (seq 0 (S (List.length (downloaded effects)))).
Proof.
  intros Hrun.
  destruct (main_identity env args g)
    as [[e0 Hstop]
       |(album_xml & name_node & album_name & id_node & album_id
         & Hfeed & Hname & Hnv & Hid & Hiv)].
  - rewrite Hstop in Hrun. discriminate Hrun.
  - destruct (properties_dir_effects_quiet env) as (_ & Hd & Hp).
    destruct (main_outcomes env args album_xml name_node id_node album_name
                album_id g Hfeed Hname Hnv Hid Hiv)
      as [(_ & H)|[(_ & _ & H)|[(_ & pre & node & post & _ & _ & _ & H)
         |(_ & _ & _ & images' & g1 & _ & H)]]];
      rewrite H in Hrun; try discriminate Hrun.
    destruct (descriptor_outcome_cases env album_name album_id
                (slideshow_document images' (duration_minutes args)))
      as [(_ & _ & Ho)|[(_ & _ & Ho)|(_ & Ho)]];
      rewrite Ho in Hrun; cbn [fst snd] in Hrun; try discriminate Hrun.
    trace_of Hrun.
    destruct (download_effects_trace
                (len (media_content_elements_of album_xml))
                (album_dir_of env album_id)
                (media_content_elements_of album_xml) 0) as (_ & Hd' & Hp').
    unfold enumerate.
    rewrite !progress_lines_app, !downloaded_app, Hd, Hp, Hd', Hp'.
    cbn [progress_lines downloaded descriptor_effects flat_map app].
    rewrite !app_nil_r. unfold len. rewrite length_map.
    reflexivity.
Qed.

Lemma progress_counts_up_witness :
  progress_lines
    (snd (fst (main (Sample.env Sample.three) (mkArgs "feed" 30 true) [1])))
  = [(3, 0); (3, 1); (3, 2); (3, 3)]%Z.
Proof.
  exact (progress_counts_up (Sample.env Sample.three)
           (mkArgs "feed" 30 true) [1] [] _ eq_refl).
Defined.



(** X14. When [os.makedirs] fails on the album directory the run raises
    [OSError], unlike the same failure on the properties directory, which
    is passed over: the one thing done by then is the call of [rmtree] on
    the album directory (whatever that call removed), and nothing is
    downloaded, printed or written. *)
Theorem album_directory_failure_stops_the_run
    (env : Env) (args : Args) (album_xml : Document)
    (name_node id_node : Node) (album_name : option string)
    (album_id : string) (g : Rng) :
  urlopen_parse env (album_url args) = Ok album_xml ->
  getitem (getElementsByTagNameNS album_xml _GPHOTO_NS "name") 0
  = Ok name_node ->
  firstChild_nodeValue name_node = Ok album_name ->
  getitem (getElementsByTagNameNS album_xml _GPHOTO_NS "id") 0 = Ok id_node ->
  firstChild_nodeValue id_node = Ok (Some album_id) ->
  makedirs_ok env (os_path_join (_BACKGROUNDS_DIR env) album_id) = false ->
  main env args g
  = (Raise OSError,
     [Rmtree (os_path_join (_BACKGROUNDS_DIR env) album_id)], g).
Proof.
  intros Hfeed Hname Hnv Hid Hiv Hmk.
  rewrite (main_identified env args album_xml name_node id_node
             album_name album_id Hfeed Hname Hnv Hid Hiv g).
  unfold album_dir_of. now rewrite Hmk.
Qed.

Lemma album_directory_failure_stops_the_run_witness :
  main (Odd.env (Sample.feed Sample.three) (fun _ => true) (fun _ => false))
    (mkArgs "feed" 30 false) [9]
  = (Raise OSError, [Rmtree "/home/u/.local/share/backgrounds/abc123"], [9]).
Proof.
  apply (album_directory_failure_stops_the_run
           (Odd.env (Sample.feed Sample.three) (fun _ => true)
              (fun _ => false))
           (mkArgs "feed" 30 false) (Sample.feed Sample.three)
           (ElementNode _GPHOTO_NS "name" [] [TextNode "Trip 2015"])
           (ElementNode _GPHOTO_NS "id" [] [TextNode "abc123"])
           (Some "Trip 2015") "abc123" [9]);
    reflexivity.
Defined.



(** X16. A feed that cannot be fetched, or that lacks the album name or
    the album identifier, stops the run before anything is touched: no
    directory is removed or created, nothing is downloaded or printed. A
    missing element shows as [IndexError], or as [AttributeError] when the
    name element found before a missing identifier is empty. *)
Theorem unidentified_album_touches_nothing
    (env : Env) (args : Args) (g : Rng) :
  (forall e, urlopen_parse env (album_url args) = Raise e ->
             main env args g = (Raise e, [], g)) /\
  (forall album_xml,
     urlopen_parse env (album_url args) = Ok album_xml ->
     getElementsByTagNameNS album_xml _GPHOTO_NS "name" = [] ->
     main env args g = (Raise IndexError, [], g)) /\
  (forall album_xml,
     urlopen_parse env (album_url args) = Ok album_xml ->
     getElementsByTagNameNS album_xml _GPHOTO_NS "id" = [] ->
     exists e,
       (e = IndexError \/ e = AttributeError) /\
       main env args g = (Raise e, [], g)).
Proof.
  split; [|split].
  - intros e He. unfold main. now rewrite bind_lift, He.
  - intros album_xml Hfeed Hnone. unfold main.
    now rewrite bind_lift, Hfeed, bind_lift, Hnone.
  - intros album_xml Hfeed Hnone.
    destruct (getitem (getElementsByTagNameNS album_xml _GPHOTO_NS "name") 0)
      as [name_node|e] eqn:Hname.
    + destruct (firstChild_nodeValue name_node) as [album_name|e] eqn:Hnv.
      * exists IndexError. split; [now left|]. unfold main.
        now rewrite bind_lift, Hfeed, bind_lift, Hname, bind_lift, Hnv,
          bind_lift, Hnone.
      * exists AttributeError. split; [now right|]. unfold main.
        rewrite bind_lift, Hfeed, bind_lift, Hname, bind_lift, Hnv.
        unfold firstChild_nodeValue in Hnv.
        destruct (firstChild name_node); [discriminate|].
        now injection Hnv as <-.
    + exists IndexError. split; [now left|]. unfold main.
      rewrite bind_lift, Hfeed, bind_lift, Hname.
      unfold getitem in Hname.
      destruct (nth_error _ 0); [discriminate|]. now injection Hname as <-.
Qed.

Lemma unidentified_album_touches_nothing_witness :
  main (Odd.env Odd.no_id_feed (fun _ => true) (fun _ => true))
    (mkArgs "feed" 30 false) [3]
  = (Raise IndexError, [], [3]).
Proof.
  destruct (unidentified_album_touches_nothing
              (Odd.env Odd.no_id_feed (fun _ => true) (fun _ => true))
              (mkArgs "feed" 30 false) [3]) as (_ & _ & Hid).
  destruct (Hid Odd.no_id_feed eq_refl eq_refl) as (e & _ & H).
  rewrite H. vm_compute in H. injection H as <-. reflexivity.
Defined.


